(** * DocuVoice: the Gemini service layer

    A shallow embedding of the service module of the DocuVoice client
    (decode, decodeAudioData, translateDocument, resolveLocation and
    generateSpeech) together with the properties its specification states
    about response normalisation, geocoding extraction, speech synthesis and
    PCM decoding.

    Conventions.
    - A JavaScript string is a Rocq [string], one character per UTF-16 code
      unit (code units below 256).
    - A JavaScript Number is a binary64 [float].
    - An [async] function is modelled by its settled outcome: [Returned v]
      for a fulfilled promise, [Thrown e] for a rejected one.
    - The hosted model ([ai.models.generateContent]) and [JSON.parse] are
      parameters of the development. *)

From Stdlib Require Import ZArith String Ascii Floats Lia.
From stdpp Require Import gmap strings list.

Set Warnings "-inexact-float,-register-all".
Local Open Scope string_scope.
Local Open Scope Z_scope.

(** ** Outcomes of a call: normal completion or a thrown exception *)

(** The exceptions that occur in the module: user-level [Error]s with their
    message, the built-in error classes raised by the language, DOM
    exceptions by name, and whatever the remote client rejects with. *)
Inductive exn : Type :=
  | Error (message : string)
  | TypeError
  | SyntaxError
  | RangeError
  | DOMException (name : string)
  | ApiError (status : Z) (message : string).

Inductive outcome (A : Type) : Type :=
  | Returned (a : A)
  | Thrown (e : exn).
Arguments Returned {A} a.
Arguments Thrown {A} e.

#[global] Instance outcome_ret : MRet outcome := fun A a => Returned a.
#[global] Instance outcome_bind : MBind outcome := fun A B f m =>
  match m with
  | Returned a => f a
  | Thrown e => Thrown e
  end.

(** [try { body } catch (error) { handler error }] *)
Definition try_catch {A : Type} (body : outcome A) (handler : exn -> outcome A) : outcome A :=
  match body with
  | Returned a => Returned a
  | Thrown e => handler e
  end.

(** ** JavaScript values *)

Inductive value : Type :=
  | VUndefined
  | VNull
  | VBool (b : bool)
  | VNum (n : float)
  | VStr (s : string)
  | VArr (items : list value)
  | VObj (props : gmap string value).

(** ToBoolean: the falsy values are undefined, null, false, +0, -0, NaN and
    the empty string. *)
Definition ToBoolean (v : value) : bool :=
  match v with
  | VUndefined | VNull => false
  | VBool b => b
  | VNum n => negb (PrimFloat.is_zero n || PrimFloat.is_nan n)
  | VStr s => negb (String.eqb s "")
  | VArr _ | VObj _ => true
  end.

(** [a || b] *)
Definition or_else (a b : value) : value := if ToBoolean a then a else b.

(** The own property [k] of a value, when it has one. Only objects carry the
    property names this module reads. *)
Definition own_property (v : value) (k : string) : option value :=
  match v with
  | VObj props => props !! k
  | _ => None
  end.

(** [v.k]: reading a property of undefined or null throws a TypeError; a
    property that is not there reads as undefined. None of the names read
    below (translation, summary, actionItems, address, isOfficialDocument,
    officialDetails, goNumber, department, date, subject) is a property of
    the Array, String, Number or Boolean prototypes, so on those values the
    read gives undefined as well. *)
Definition get (v : value) (k : string) : outcome value :=
  match v with
  | VUndefined | VNull => Thrown TypeError
  | _ => Returned (default VUndefined (own_property v k))
  end.

(** [v?.k] *)
Definition get_opt (v : value) (k : string) : outcome value :=
  match v with
  | VUndefined | VNull => Returned VUndefined
  | _ => get v k
  end.

(** ** Characters and the text operations of the platform *)

Definition charCode (c : ascii) : Z := Z.of_N (N_of_ascii c).

(** The class [\s] of a regular expression, which is also the white space
    [parseFloat] skips: tab, line feed, vertical tab, form feed, carriage
    return, space and no-break space (the other members of the class lie
    above code unit 255). *)
Definition is_white_space (c : ascii) : bool :=
  let n := charCode c in
  ((9 <=? n) && (n <=? 13)) || (n =? 32) || (n =? 160).

(** The class [\d]. *)
Definition is_digit (c : ascii) : bool :=
  let n := charCode c in (48 <=? n) && (n <=? 57).

(** Canonicalize of an ignore-case pattern without the unicode flag: a
    character is compared through its upper-case form. A character outside
    ASCII never folds into ASCII, and ASCII is all the patterns below
    contain, so only the ASCII letters are folded. *)
Definition canonicalize (c : ascii) : ascii :=
  let n := charCode c in
  if (97 <=? n) && (n <=? 122) then ascii_of_N (Z.to_N (n - 32)) else c.

Fixpoint skip_white_space (s : string) : string :=
  match s with
  | String c s' => if is_white_space c then skip_white_space s' else s
  | EmptyString => EmptyString
  end.

(** The longest run of digits at the start of [s], and what follows it. *)
Fixpoint take_digits (s : string) : string * string :=
  match s with
  | String c s' =>
      if is_digit c
      then let '(ds, rest) := take_digits s' in (String c ds, rest)
      else (EmptyString, s)
  | EmptyString => (EmptyString, EmptyString)
  end.

Definition is_empty (s : string) : bool := String.eqb s "".

(** What follows the character [c] when [s] starts with it. *)
Definition starts_with (c : ascii) (s : string) : option string :=
  match s with
  | String c' s' => if Ascii.eqb c' c then Some s' else None
  | EmptyString => None
  end.

(** *** The coordinate patterns

    [/LAT:\s*(-?\d+(\.\d+)?)/i] and [/LNG:\s*(-?\d+(\.\d+)?)/i] differ in
    their literal marker only. The quantifiers are greedy and the classes
    they range over are disjoint from what follows them, so the first
    successful path of the backtracking matcher is the one that takes the
    longest runs. *)

(** The marker, compared ignoring case; returns the text after it. *)
Fixpoint match_marker (marker s : string) : option string :=
  match marker with
  | EmptyString => Some s
  | String m marker' =>
      match s with
      | String c s' =>
          if Ascii.eqb (canonicalize c) (canonicalize m)
          then match_marker marker' s'
          else None
      | EmptyString => None
      end
  end.

(** [\d+(\.\d+)?] at the start of [s]: the text matched. *)
Definition match_unsigned (s : string) : option string :=
  let '(int_part, s2) := take_digits s in
  if is_empty int_part then None
  else
    match starts_with "." s2 with
    | Some s3 =>
        let '(frac_part, _) := take_digits s3 in
        if is_empty frac_part then Some int_part
        else Some (int_part ++ "." ++ frac_part)
    | None => Some int_part
    end.

(** [(-?\d+(\.\d+)?)] at the start of [s]: the text of capture group 1. A
    minus sign that no digit follows is not the start of a match. *)
Definition match_number (s : string) : option string :=
  match starts_with "-" s with
  | Some s' => String "-" <$> match_unsigned s'
  | None => match_unsigned s
  end.

(** The whole pattern anchored at the start of [s]. *)
Definition match_here (marker s : string) : option string :=
  rest ← match_marker marker s;
  match_number (skip_white_space rest).

(** [s.match(pattern)] without the global flag: the leftmost position at
    which the pattern matches. The result stands for the match array, of
    which the module reads capture group 1 only; [None] is [null]. *)
Fixpoint regex_match (marker s : string) : option string :=
  match match_here marker s with
  | Some group1 => Some group1
  | None =>
      match s with
      | String _ s' => regex_match marker s'
      | EmptyString => None
      end
  end.

(** *** parseFloat *)

Definition digit_value (c : ascii) : Z := charCode c - 48.

(** The integer written by a string of digits. *)
Definition digits_value (ds : string) : Z :=
  fold_left (fun acc c => 10 * acc + digit_value c) (list_ascii_of_string ds) 0.

(** The binary64 number nearest to [m * 10 ^ x] (ties to even), with sign
    [neg], for a natural [m]. *)
Definition decimal_to_number (neg : bool) (m x : Z) : float :=
  match m with
  | Zpos p =>
      if 0 <=? x
      then SF2Prim (binary_normalize 53 1024
                      ((if neg then Z.neg p else Z.pos p) * 10 ^ x) 0 neg)
      else SF2Prim (SFdiv 53 1024 (S754_finite neg p 0)
                      (S754_finite false (Z.to_pos (10 ^ (- x))) 0))
  | _ => if neg then (-0)%float else 0%float
  end.

(** An exponent part [e], [e+] or [e-] followed by digits; an incomplete one
    is not part of the number. *)
Definition exponent_part (s : string) : Z :=
  match s with
  | String c s1 =>
      if Ascii.eqb c "e" || Ascii.eqb c "E" then
        let '(neg, s2) :=
          match starts_with "-" s1, starts_with "+" s1 with
          | Some s', _ => (true, s')
          | None, Some s' => (false, s')
          | None, None => (false, s1)
          end in
        let '(ds, _) := take_digits s2 in
        if is_empty ds then 0
        else if neg then - digits_value ds else digits_value ds
      else 0
  | EmptyString => 0
  end.

(** [parseFloat(s)]: skips leading white space and reads the longest prefix
    that is a decimal literal (StrDecimalLiteral); NaN when there is none. *)
Definition parseFloat (s : string) : float :=
  let s0 := skip_white_space s in
  let '(neg, s1) :=
    match starts_with "-" s0, starts_with "+" s0 with
    | Some s', _ => (true, s')
    | None, Some s' => (false, s')
    | None, None => (false, s0)
    end in
  if String.prefix "Infinity" s1
  then (if neg then neg_infinity else infinity)
  else
    let '(int_part, s2) := take_digits s1 in
    let '(frac_part, s3) :=
      match starts_with "." s2 with
      | Some s' => take_digits s'
      | None => (EmptyString, s2)
      end in
    if is_empty int_part && is_empty frac_part then nan
    else
      decimal_to_number neg
        (digits_value (int_part ++ frac_part))
        (exponent_part s3 - Z.of_nat (String.length frac_part)).

(** ** Typed arrays and the audio buffer *)

(** [for (let i = 0; i < n; i++) body], threading the state the body
    updates. *)
Definition for_range {S : Type} (n : nat) (body : nat -> S -> S) (s : S) : S :=
  foldl (fun s i => body i s) s (seq 0 n).

(** The same loop with a body that may throw. *)
Fixpoint for_each {S : Type} (body : nat -> S -> outcome S) (indices : list nat) (s : S)
  : outcome S :=
  match indices with
  | [] => Returned s
  | i :: rest => s' ← body i s; for_each body rest s'
  end.

(** *** atob

    The forgiving base64 decoder of the platform: ASCII white space is
    dropped, one or two padding characters are allowed when the length is a
    multiple of four, and anything else outside the alphabet is an
    InvalidCharacterError. The result is a binary string, one character per
    byte. *)

Definition is_ascii_whitespace (c : ascii) : bool :=
  let n := charCode c in
  (n =? 9) || (n =? 10) || (n =? 12) || (n =? 13) || (n =? 32).

Definition base64_value (c : ascii) : option Z :=
  let n := charCode c in
  if (65 <=? n) && (n <=? 90) then Some (n - 65)
  else if (97 <=? n) && (n <=? 122) then Some (n - 71)
  else if (48 <=? n) && (n <=? 57) then Some (n + 4)
  else if n =? 43 then Some 62
  else if n =? 47 then Some 63
  else None.

Definition strip_padding (cs : list ascii) : list ascii :=
  if (length cs mod 4 =? 0)%nat then
    match rev cs with
    | "="%char :: "="%char :: r => rev r
    | "="%char :: r => rev r
    | _ => cs
    end
  else cs.

(** Four sextets give three bytes; a final group of three gives two bytes
    and a final group of two gives one, the surplus bits being dropped. *)
Fixpoint sextets_to_bytes (vs : list Z) : list Z :=
  match vs with
  | a :: b :: c :: d :: rest =>
      let n := Z.lor (Z.lor (Z.shiftl a 18) (Z.shiftl b 12)) (Z.lor (Z.shiftl c 6) d) in
      Z.shiftr n 16 :: Z.land (Z.shiftr n 8) 255 :: Z.land n 255 :: sextets_to_bytes rest
  | [a; b; c] =>
      let n := Z.lor (Z.lor (Z.shiftl a 12) (Z.shiftl b 6)) c in
      [Z.shiftr n 10; Z.land (Z.shiftr n 2) 255]
  | [a; b] =>
      let n := Z.lor (Z.shiftl a 6) b in
      [Z.shiftr n 4]
  | _ => []
  end.

Definition atob (base64 : string) : outcome string :=
  let data := strip_padding
    (filter (fun c => is_ascii_whitespace c = false) (list_ascii_of_string base64)) in
  if (length data mod 4 =? 1)%nat then Thrown (DOMException "InvalidCharacterError")
  else
    match mapM base64_value data with
    | Some vs =>
        Returned (string_of_list_ascii
                    (map (fun b => ascii_of_N (Z.to_N b)) (sextets_to_bytes vs)))
    | None => Thrown (DOMException "InvalidCharacterError")
    end.

(** [s.charCodeAt(i)]; [None] is the NaN of a position outside the
    string. *)
Definition charCodeAt (s : string) (i : nat) : option Z :=
  charCode <$> String.get i s.

(** Storing into a Uint8Array converts with ToUint8. *)
Definition ToUint8 (n : option Z) : Z :=
  match n with
  | Some z => z mod 256
  | None => 0
  end.

(** A Uint8Array, and the ArrayBuffer behind it, is its list of bytes. *)
Definition decode (base64 : string) : outcome (list Z) :=
  binaryString ← atob base64;
  let len := String.length binaryString in
  let bytes := replicate len 0 in
  mret (for_range len
          (fun i bytes => <[i := ToUint8 (charCodeAt binaryString i)]> bytes)
          bytes).

Definition ToInt16 (u : Z) : Z := if u <? 32768 then u else u - 65536.

(** The elements of an Int16Array laid over a byte buffer, on a
    little-endian platform: the low byte comes first. *)
Fixpoint int16_elements (bytes : list Z) : list Z :=
  match bytes with
  | lo :: hi :: rest => ToInt16 (Z.lor lo (Z.shiftl hi 8)) :: int16_elements rest
  | _ => []
  end.

(** [new Int16Array(buffer)]: a RangeError unless the byte length of the
    buffer is a multiple of the element size. *)
Definition Int16Array_of_buffer (buffer : list Z) : outcome (list Z) :=
  if Nat.even (length buffer) then Returned (int16_elements buffer)
  else Thrown RangeError.

(** The Number with the value of an integer (exact below 2^53). *)
Definition number_of_Z (z : Z) : float :=
  SF2Prim (binary_normalize 53 1024 z 0 false).

(** Reading a typed-array element as a Number; outside the array the read
    gives undefined, which is NaN in arithmetic. *)
Definition element_number (e : option Z) : float :=
  match e with
  | Some z => number_of_Z z
  | None => nan
  end.

(** Storing into a Float32Array rounds the Number to binary32. *)
Definition fround (x : float) : float :=
  match Prim2SF x with
  | S754_finite s m e =>
      SF2Prim (binary_normalize 24 128 (if s then Z.neg m else Z.pos m) e s)
  | _ => x
  end.

(** An AudioBuffer: its sample rate and one Float32Array per channel. *)
Record AudioBuffer : Type :=
  { sampleRate : float;
    channels : list (list float) }.

(** What of an AudioContext bears on [createBuffer]: the limits of the
    implementation. *)
Record AudioContext : Type :=
  { maxChannelCount : nat;
    supportsSampleRate : float -> bool }.

(** A Number passed for a Web IDL [float] parameter: a TypeError for NaN,
    for an infinity and for a value beyond the binary32 range; otherwise
    the nearest binary32 number. *)
Definition to_float (x : float) : outcome float :=
  let y := fround x in
  if PrimFloat.is_finite y then Returned y else Thrown TypeError.

(** [ctx.createBuffer(numberOfChannels, length, sampleRate)]. The sample
    rate is a [float] parameter, converted before the method runs; the
    method gives a silent buffer at the converted rate, or a
    NotSupportedError when an argument is zero or outside what the
    implementation supports. *)
Definition createBuffer (ctx : AudioContext) (numberOfChannels length : nat) (sampleRate : float)
  : outcome AudioBuffer :=
  sampleRate ← to_float sampleRate;
  if (numberOfChannels =? 0)%nat || (maxChannelCount ctx <? numberOfChannels)%nat
     || (length =? 0)%nat || negb (supportsSampleRate ctx sampleRate)
  then Thrown (DOMException "NotSupportedError")
  else Returned {| sampleRate := sampleRate;
                   channels := replicate numberOfChannels (replicate length 0%float) |}.

(** [buffer.getChannelData(channel)]; an IndexSizeError when there is no
    such channel. *)
Definition getChannelData (buffer : AudioBuffer) (channel : nat) : outcome (list float) :=
  match channels buffer !! channel with
  | Some channelData => Returned channelData
  | None => Thrown (DOMException "IndexSizeError")
  end.

(** The array [getChannelData] returns is the storage of the buffer itself:
    the writes of the inner loop are writes to the buffer, which
    [setChannelData] carries back. *)
Definition setChannelData (buffer : AudioBuffer) (channel : nat) (channelData : list float)
  : AudioBuffer :=
  {| sampleRate := sampleRate buffer;
     channels := <[channel := channelData]> (channels buffer) |}.

Definition decodeAudioData (base64Data : string) (ctx : AudioContext) (sampleRate : option float)
  : outcome AudioBuffer :=
  let sampleRate := default 24000%float sampleRate in
  bytes ← decode base64Data;
  dataInt16 ← Int16Array_of_buffer bytes;
  let numChannels := 1%nat in
  let frameCount := (length dataInt16 / numChannels)%nat in
  buffer ← createBuffer ctx numChannels frameCount sampleRate;
  for_each
    (fun channel buffer =>
       channelData ← getChannelData buffer channel;
       mret (setChannelData buffer channel
               (for_range frameCount
                  (fun i channelData =>
                     <[i := fround (element_number (dataInt16 !! (i * numChannels + channel)%nat)
                                    / 32768)%float]> channelData)
                  channelData)))
    (seq 0 numChannels)
    buffer.

(** ** The interface of the hosted model *)

(** The shapes of a [GenerateContentResponse] that the module reads. Every
    field is optional in the client library. *)
Module GenAI.

Record GroundingChunkWeb : Type := { uri : option string }.
Record GroundingChunk : Type := { web : option GroundingChunkWeb }.
Record GroundingMetadata : Type :=
  { groundingChunks : option (list GroundingChunk) }.
Record Blob : Type := { data : option string }.
Record Part : Type := { inlineData : option Blob }.
Record Content : Type := { parts : option (list Part) }.
Record Candidate : Type :=
  { content : option Content;
    groundingMetadata : option GroundingMetadata }.
Record GenerateContentResponse : Type :=
  { text : option string;
    candidates : option (list Candidate) }.

End GenAI.

Inductive Mode : Type := speed | detailed.

(** [mode === 'speed' ? 0 : 2048] *)
Definition thinkingBudget_of (mode : Mode) : Z :=
  match mode with
  | speed => 0
  | detailed => 2048
  end.

(** The three requests the module sends, with what varies in each: the model
    identifier and the caller's data. The instruction wording, the response
    schema and the voice settings are constants of each request. *)
Inductive GenerateContentParameters : Type :=
  | TranslateRequest (model mimeType data targetLanguage : string) (thinkingBudget : Z)
  | GeocodeRequest (model address : string)
  | SpeechRequest (model text voiceName : string).

(** ** Results *)

Record OfficialDocInfo : Type :=
  { isOfficial : bool;
    goNumber : value;
    department : value;
    date : value;
    subject : value }.

(** What [translateDocument] resolves to. The payload is untyped at run
    time, so the fields copied from it hold arbitrary values; [officialInfo]
    is [None] for [null]. *)
Record TranslationResult : Type :=
  { text : value;
    summary : value;
    actionItems : value;
    address : value;
    officialInfo : option OfficialDocInfo }.

(** What [resolveLocation] resolves to; [None] is an undefined field, and
    [{}] has all three undefined. *)
Record LocationResult : Type :=
  { latitude : option float;
    longitude : option float;
    mapUri : option string }.

Definition empty_location : LocationResult :=
  {| latitude := None; longitude := None; mapUri := None |}.

(** The value of an optional string field. *)
Definition string_value (o : option string) : value :=
  from_option VStr VUndefined o.

(** [o || d] for an optional string [o]. *)
Definition string_or (o : option string) (d : string) : string :=
  if ToBoolean (string_value o) then default d o else d.

(** The loop over the grounding chunks: the first chunk whose [web?.uri] is
    truthy sets [mapUri] and ends the loop. *)
Fixpoint first_web_uri (chunks : list GenAI.GroundingChunk) : option string :=
  match chunks with
  | [] => None
  | chunk :: rest =>
      let uri := GenAI.web chunk ≫= GenAI.uri in
      if ToBoolean (string_value uri) then uri else first_web_uri rest
  end.

Section Service.

(** [ai.models.generateContent], awaited. *)
Variable generateContent : GenerateContentParameters -> outcome GenAI.GenerateContentResponse.

(** [JSON.parse]; it throws a SyntaxError on text that is not JSON. *)
Variable JSON_parse : string -> outcome value.

(** The three exported functions. The [console.error] calls of their
    handlers write to the log and have no bearing on the outcome. *)

Definition translateDocument (base64Data mimeType targetLanguage : string) (mode : Mode)
  : outcome TranslationResult :=
  try_catch
    (let thinkingBudget := thinkingBudget_of mode in
     response ← generateContent
       (TranslateRequest "gemini-3-flash-preview" mimeType base64Data targetLanguage thinkingBudget);
     if ToBoolean (string_value (GenAI.text response)) then
       result ← JSON_parse (default "" (GenAI.text response));
       isOfficialDocument ← get result "isOfficialDocument";
       officialInfo ←
         (if ToBoolean isOfficialDocument then
            goNumber ← get result "officialDetails" ≫= (λ d, get_opt d "goNumber");
            department ← get result "officialDetails" ≫= (λ d, get_opt d "department");
            date ← get result "officialDetails" ≫= (λ d, get_opt d "date");
            subject ← get result "officialDetails" ≫= (λ d, get_opt d "subject");
            mret (Some {| isOfficial := true;
                          goNumber := goNumber;
                          department := department;
                          date := date;
                          subject := subject |})
          else mret None);
       translation ← get result "translation";
       summary ← get result "summary";
       actionItems ← get result "actionItems";
       address ← get result "address";
       mret {| text := or_else translation (VStr "Could not extract text.");
               summary := or_else summary (VStr "No summary available.");
               actionItems := or_else actionItems (VArr []);
               address := or_else address VNull;
               officialInfo := officialInfo |}
     else
       mret {| text := VStr "Could not extract text.";
               summary := VStr "";
               actionItems := VArr [];
               address := VNull;
               officialInfo := None |})
    (fun error => Thrown (Error "Failed to translate document.")).

Definition resolveLocation (address : string) : outcome LocationResult :=
  try_catch
    (response ← generateContent (GeocodeRequest "gemini-2.5-flash" address);
     let text := string_or (GenAI.text response) "" in
     let latMatch := regex_match "LAT:" text in
     let lngMatch := regex_match "LNG:" text in
     let '(latitude, longitude) :=
       match latMatch, lngMatch with
       | Some lat, Some lng => (Some (parseFloat lat), Some (parseFloat lng))
       | _, _ => (None, None)
       end in
     let groundingChunks :=
       cs ← GenAI.candidates response;
       c ← cs !! 0%nat;
       m ← GenAI.groundingMetadata c;
       GenAI.groundingChunks m in
     let mapUri :=
       match groundingChunks with
       | Some chunks => first_web_uri chunks
       | None => None
       end in
     mret {| latitude := latitude; longitude := longitude; mapUri := mapUri |})
    (fun error => mret empty_location).

Definition generateSpeech (text : string) : outcome string :=
  try_catch
    (response ← generateContent (SpeechRequest "gemini-2.5-flash-preview-tts" text "Kore");
     let audioData :=
       cs ← GenAI.candidates response;
       c ← cs !! 0%nat;
       ct ← GenAI.content c;
       ps ← GenAI.parts ct;
       p ← ps !! 0%nat;
       b ← GenAI.inlineData p;
       GenAI.data b in
     if negb (ToBoolean (string_value audioData))
     then Thrown (Error "No audio data received.")
     else mret (default "" audioData))
    (fun error => Thrown (Error "Failed to generate speech.")).

End Service.

(** ** Concrete services and payloads *)

(** A service that is down, and one that answers every request with the
    same response. *)
Definition service_down : GenerateContentParameters -> outcome GenAI.GenerateContentResponse :=
  fun _ => Thrown (ApiError 503 "Service Unavailable").

Definition service_replying (response : GenAI.GenerateContentResponse)
  : GenerateContentParameters -> outcome GenAI.GenerateContentResponse :=
  fun _ => Returned response.

Definition text_response (t : string) : GenAI.GenerateContentResponse :=
  {| GenAI.text := Some t; GenAI.candidates := None |}.

(** A parser that knows one JSON text. *)
Definition parse_only (json : string) (v : value) : string -> outcome value :=
  fun s => if String.eqb s json then Returned v else Thrown SyntaxError.

Definition quoted (s : string) : string :=
  String "034" s ++ String "034" EmptyString.

(** [{"isOfficialDocument":false,"officialDetails":{"goNumber":"G.O. 12"}}] *)
Definition unofficial_json : string :=
  "{" ++ quoted "isOfficialDocument" ++ ":false," ++ quoted "officialDetails" ++ ":{"
      ++ quoted "goNumber" ++ ":" ++ quoted "G.O. 12" ++ "}}".

Definition unofficial_payload : value :=
  VObj {[ "isOfficialDocument" := VBool false;
          "officialDetails" := VObj {[ "goNumber" := VStr "G.O. 12" ]} ]}.

(** [{"isOfficialDocument":true,"officialDetails":{"goNumber":"G.O. 12"},"translation":"Namaste"}] *)
Definition official_json : string :=
  "{" ++ quoted "isOfficialDocument" ++ ":true," ++ quoted "officialDetails" ++ ":{"
      ++ quoted "goNumber" ++ ":" ++ quoted "G.O. 12" ++ "},"
      ++ quoted "translation" ++ ":" ++ quoted "Namaste" ++ "}".

Definition official_payload : value :=
  VObj {[ "isOfficialDocument" := VBool true;
          "officialDetails" := VObj {[ "goNumber" := VStr "G.O. 12" ]};
          "translation" := VStr "Namaste" ]}.

(** [{"isOfficialDocument":true}] *)
Definition bare_official_json : string :=
  "{" ++ quoted "isOfficialDocument" ++ ":true}".

Definition bare_official_payload : value :=
  VObj {[ "isOfficialDocument" := VBool true ]}.

(** ** The vocabulary of the specification *)

(** [out] is the payload's value [v] when that is truthy, and the
    placeholder otherwise. *)
Definition value_or_placeholder (v placeholder out : value) : Prop :=
  (ToBoolean v = true ∧ out = v) ∨ (ToBoolean v = false ∧ out = placeholder).

(** The invariant of the data model as it is worded: no optional field of a
    result is left undefined. *)
Definition every_optional_field_defaulted (r : TranslationResult) : Prop :=
  summary r ≠ VUndefined ∧ actionItems r ≠ VUndefined ∧ address r ≠ VUndefined ∧
  ∀ info, officialInfo r = Some info →
    goNumber info ≠ VUndefined ∧ department info ≠ VUndefined ∧
    date info ≠ VUndefined ∧ subject info ≠ VUndefined.

(** The audio payload of a synthesis response: the non-empty inline data of
    the first part of the first candidate. *)
Inductive audio_payload (response : GenAI.GenerateContentResponse) (audio : string) : Prop :=
  | audio_payload_intro c cs ct p ps b :
      GenAI.candidates response = Some (c :: cs) →
      GenAI.content c = Some ct →
      GenAI.parts ct = Some (p :: ps) →
      GenAI.inlineData p = Some b →
      GenAI.data b = Some audio →
      audio ≠ "" →
      audio_payload response audio.

(** The grounding references of a geocoding response: the chunk list of the
    grounding metadata of the first candidate. *)
Inductive grounding_references (response : GenAI.GenerateContentResponse)
    (chunks : list GenAI.GroundingChunk) : Prop :=
  | grounding_references_intro c cs m :
      GenAI.candidates response = Some (c :: cs) →
      GenAI.groundingMetadata c = Some m →
      GenAI.groundingChunks m = Some chunks →
      grounding_references response chunks.

(** A reference exposes the web URI [u]: it has a web part with the
    non-empty URI [u]. *)
Definition exposes_web_uri (chunk : GenAI.GroundingChunk) (u : string) : Prop :=
  ∃ w, GenAI.web chunk = Some w ∧ GenAI.uri w = Some u ∧ u ≠ "".

Definition geocode_response (t : string) (chunks : list GenAI.GroundingChunk)
  : GenAI.GenerateContentResponse :=
  {| GenAI.text := Some t;
     GenAI.candidates :=
       Some [ {| GenAI.content := None;
                 GenAI.groundingMetadata :=
                   Some {| GenAI.groundingChunks := Some chunks |} |} ] |}.

Definition web_chunk (u : string) : GenAI.GroundingChunk :=
  {| GenAI.web := Some {| GenAI.uri := Some u |} |}.

Definition plain_chunk : GenAI.GroundingChunk := {| GenAI.web := None |}.

Definition speech_response (audio : option string) : GenAI.GenerateContentResponse :=
  {| GenAI.text := None;
     GenAI.candidates :=
       Some [ {| GenAI.content :=
                   Some {| GenAI.parts :=
                             Some [ {| GenAI.inlineData := Some {| GenAI.data := audio |} |} ] |};
                 GenAI.groundingMetadata := None |} ] |}.

(** A context with the limits every implementation must at least support:
    32 channels, sample rates from 8000 Hz to 96000 Hz. *)
Definition reference_context : AudioContext :=
  {| maxChannelCount := 32;
     supportsSampleRate := λ r, ((8000 <=? r) && (r <=? 96000))%float |}.

(** Every character of [s] satisfies [p]. *)
Fixpoint all_chars (p : ascii → bool) (s : string) : bool :=
  match s with
  | String c s' => p c && all_chars p s'
  | EmptyString => true
  end.

(** Two texts that are equal when case is ignored. *)
Fixpoint same_ignoring_case (a b : string) : bool :=
  match a, b with
  | String x a', String y b' =>
      Ascii.eqb (canonicalize x) (canonicalize y) && same_ignoring_case a' b'
  | EmptyString, EmptyString => true
  | _, _ => false
  end.

(** The text [s] contains a match of [/marker\s*(-?\d+(\.\d+)?)/i]: the
    marker in any case, white space, an optional minus sign and at least one
    digit (the fraction being optional, it does not bear on whether there is
    a match). *)
Inductive contains_coordinate (marker s : string) : Prop :=
  | contains_coordinate_intro before m spaces sign digits after :
      s = before ++ m ++ spaces ++ sign ++ digits ++ after →
      same_ignoring_case m marker = true →
      all_chars is_white_space spaces = true →
      sign = "" ∨ sign = "-" →
      digits ≠ "" →
      all_chars is_digit digits = true →
      contains_coordinate marker s.

(** [k] holds of [acc * 2 ^ bits + u] for every [u] below [2 ^ bits]: the
    binary enumeration behind the exhaustive check of the 16-bit samples. *)
Fixpoint all_below (bits : nat) (k : Z → bool) (acc : Z) : bool :=
  match bits with
  | O => k acc
  | S b => all_below b k (2 * acc) && all_below b k (2 * acc + 1)
  end.

(** The quotient of the 16-bit integer [u - 32768] by 32768.0 is stored in a
    Float32Array unchanged. *)
Definition stored_unchanged (u : Z) : bool :=
  let x := (number_of_Z (u - 32768) / 32768)%float in
  PrimFloat.Leibniz.eqb (fround x) x.

(** ** 16-bit PCM as the decoder expects it *)

(** The two bytes of a 16-bit integer in two's complement, low byte
    first. *)
Definition int16_bytes (v : Z) : list Z := [v mod 256; (v / 256) mod 256].

(** A sequence of 16-bit samples as a byte stream. *)
Definition pcm_bytes (pcm : list Z) : list Z := pcm ≫= int16_bytes.

(** The integer a Number denotes when it denotes one (0 otherwise). *)
Definition integer_of_number (x : float) : Z :=
  match Prim2SF x with
  | S754_finite s m e =>
      let a := Z.shiftl (Z.pos m) e in
      if s then - a else a
  | _ => 0
  end.

(** A sample scaled back to the 16-bit range. *)
Definition requantise (sample : float) : Z := integer_of_number (sample * 32768)%float.

(** The quotient of the 16-bit integer [u - 32768] by 32768.0 lies in
    [-1, 1) and scales back to the integer. *)
Definition sample_bounded_and_reversible (u : Z) : bool :=
  let v := u - 32768 in
  let x := (number_of_Z v / 32768)%float in
  (-1 <=? x)%float && (x <? 1)%float && (requantise x =? v).

(** [{"isOfficialDocument":"yes"}] *)
Definition string_flag_json : string :=
  "{" ++ quoted "isOfficialDocument" ++ ":" ++ quoted "yes" ++ "}".

Definition string_flag_payload : value :=
  VObj {[ "isOfficialDocument" := VStr "yes" ]}.

(** ** The models of the platform on sample inputs *)

Example atob_samples :
  atob "aGVsbG8=" = Returned "hello"
  ∧ atob "aGVs bG8" = Returned "hello"
  ∧ atob "aGVsbA==" = Returned "hell"
  ∧ atob "" = Returned ""
  ∧ atob "aGVsbA=" = Thrown (DOMException "InvalidCharacterError")
  ∧ atob "aGVsb" = Thrown (DOMException "InvalidCharacterError")
  ∧ atob "a===" = Thrown (DOMException "InvalidCharacterError").
Proof. repeat split; reflexivity. Qed.

Example decode_samples :
  decode "//79" = Returned [255; 254; 253]
  ∧ Int16Array_of_buffer [255; 255; 0; 128; 1; 0] = Returned [-1; -32768; 1]
  ∧ Int16Array_of_buffer [255; 254; 253] = Thrown RangeError.
Proof. repeat split; reflexivity. Qed.

Example regex_match_samples :
  regex_match "LAT:" "LAT: 12.9716, LNG: 77.5946" = Some "12.9716"
  ∧ regex_match "LNG:" "LAT: 12.9716, LNG: 77.5946" = Some "77.5946"
  ∧ regex_match "LAT:" "near lat:   -12.x Lat:-7.5" = Some "-12"
  ∧ regex_match "LAT:" "LAT: - 12, Lat:7." = Some "7"
  ∧ regex_match "LNG:" "LAT: 12.34" = None
  ∧ regex_match "LAT:" "LATITUDE 12.34" = None.
Proof. repeat split; reflexivity. Qed.

Example parseFloat_samples :
  parseFloat <$> ["12.9716"; "  -0"; "-12.5e2x"; "1.e5"; ".5"; "1e"; "1e-2"; "007"; "1e400"]
    = [12.9716; -0; -1250; 100000; 0.5; 1; 0.01; 7; infinity]%float
  ∧ parseFloat <$> ["."; "abc"; ""; "infinity"; "-Infinity"]
    = [nan; nan; nan; nan; neg_infinity].
Proof. split; reflexivity. Qed.

Example fround_samples :
  fround 0.1 = 0.100000001490116119384765625%float
  ∧ fround 1e40 = infinity
  ∧ fround (-1e-46) = (-0)%float
  ∧ fround 0.5 = 0.5%float.
Proof. repeat split; reflexivity. Qed.

Example createBuffer_samples :
  createBuffer reference_context 1 2 24000.1
    = Returned {| sampleRate := 24000.099609375; channels := [[0; 0]%float] |}
  ∧ createBuffer reference_context 1 2 nan = Thrown TypeError
  ∧ createBuffer reference_context 1 2 infinity = Thrown TypeError
  ∧ createBuffer reference_context 1 2 1e40 = Thrown TypeError
  ∧ createBuffer reference_context 1 0 nan = Thrown TypeError
  ∧ createBuffer reference_context 1 0 24000 = Thrown (DOMException "NotSupportedError")
  ∧ createBuffer reference_context 1 2 100 = Thrown (DOMException "NotSupportedError").
Proof. repeat split; reflexivity. Qed.

Example ToBoolean_samples :
  ToBoolean <$> [VUndefined; VNull; VBool false; VNum 0; VNum (-0); VNum nan; VStr ""]
    = [false; false; false; false; false; false; false]
  ∧ ToBoolean <$> [VBool true; VNum 1; VNum infinity; VStr "0"; VArr []; VObj ∅]
    = [true; true; true; true; true; true].
Proof. split; reflexivity. Qed.

Example translateDocument_official_sample :
  translateDocument (service_replying (text_response official_json))
    (parse_only official_json official_payload) "JVBERi0=" "application/pdf" "Hindi" detailed
  = Returned
      {| text := VStr "Namaste";
         summary := VStr "No summary available.";
         actionItems := VArr [];
         address := VNull;
         officialInfo :=
           Some {| isOfficial := true;
                   goNumber := VStr "G.O. 12";
                   department := VUndefined;
                   date := VUndefined;
                   subject := VUndefined |} |}.
Proof. reflexivity. Qed.

(** ** Basic facts about values and outcomes *)

Lemma ToBoolean_undefined_free (v : value) : ToBoolean v = true → v ≠ VUndefined.
Proof. by destruct v. Qed.

Lemma or_else_defined (a b : value) : b ≠ VUndefined → or_else a b ≠ VUndefined.
Proof.
  intros Hb. unfold or_else. destruct (ToBoolean a) eqn:Ha; [|done].
  by apply ToBoolean_undefined_free.
Qed.

Lemma get_returns (v : value) (k : string) :
  v ≠ VUndefined → v ≠ VNull → get v k = Returned (default VUndefined (own_property v k)).
Proof. by destruct v. Qed.

Lemma get_returned_inv (v : value) (k : string) (x : value) :
  get v k = Returned x →
  v ≠ VUndefined ∧ v ≠ VNull ∧ x = default VUndefined (own_property v k).
Proof. destruct v; simpl; intros H; by simplify_eq. Qed.

Lemma get_opt_own_property (v : value) (k : string) :
  get_opt v k = Returned (default VUndefined (own_property v k)).
Proof. by destruct v. Qed.

Lemma string_value_truthy (o : option string) :
  ToBoolean (string_value o) = true ↔ ∃ s, o = Some s ∧ s ≠ "".
Proof.
  destruct o as [s|]; simpl.
  - destruct (String.eqb_spec s ""); simpl; split.
    + done.
    + intros (s' & [= <-] & Hs). done.
    + eauto.
    + done.
  - split; [done | by intros (s & ? & _)].
Qed.

Lemma string_value_falsy (o : option string) :
  ToBoolean (string_value o) = false ↔ o = None ∨ o = Some "".
Proof.
  destruct o as [s|]; simpl.
  - destruct (String.eqb_spec s ""); simpl; split; try done; auto.
    + by subst; right.
    + by intros [|[= ->]].
  - split; auto.
Qed.

(** ** translateDocument *)

Section TranslateFacts.

Variable generateContent : GenerateContentParameters -> outcome GenAI.GenerateContentResponse.
Variable JSON_parse : string -> outcome value.
Variables base64Data mimeType targetLanguage : string.
Variable mode : Mode.

(** Whatever goes wrong inside the [try] block, the caller sees the one
    generic error. *)
Lemma translateDocument_throws_generic (e : exn) :
  translateDocument generateContent JSON_parse base64Data mimeType targetLanguage mode
    = Thrown e →
  e = Error "Failed to translate document.".
Proof.
  unfold translateDocument, try_catch.
  destruct (_ ≫= _); by intros [= <-].
Qed.

(** The outcome for a non-empty response text whose payload has fields. *)
Lemma translateDocument_parsed (response : GenAI.GenerateContentResponse)
    (t : string) (payload : value) :
  generateContent (TranslateRequest "gemini-3-flash-preview" mimeType base64Data
                     targetLanguage (thinkingBudget_of mode)) = Returned response →
  GenAI.text response = Some t → t ≠ "" →
  JSON_parse t = Returned payload →
  payload ≠ VUndefined → payload ≠ VNull →
  let field k := default VUndefined (own_property payload k) in
  let detail k := default VUndefined (own_property (field "officialDetails") k) in
  translateDocument generateContent JSON_parse base64Data mimeType targetLanguage mode
    = Returned
        {| text := or_else (field "translation") (VStr "Could not extract text.");
           summary := or_else (field "summary") (VStr "No summary available.");
           actionItems := or_else (field "actionItems") (VArr []);
           address := or_else (field "address") VNull;
           officialInfo :=
             if ToBoolean (field "isOfficialDocument")
             then Some {| isOfficial := true;
                          goNumber := detail "goNumber";
                          department := detail "department";
                          date := detail "date";
                          subject := detail "subject" |}
             else None |}.
Proof.
  intros Hcall Ht Hne Hparse Hu Hn field detail.
  unfold translateDocument. rewrite Hcall. simpl.
  assert (ToBoolean (string_value (GenAI.text response)) = true) as ->
    by (apply string_value_truthy; eauto).
  rewrite Ht. simpl. rewrite Hparse. simpl.
  rewrite !(get_returns payload) by done. simpl.
  fold (field "isOfficialDocument").
  destruct (ToBoolean (field "isOfficialDocument")); simpl; [|done].
  rewrite !get_opt_own_property. done.
Qed.

End TranslateFacts.

(** C1. For every parsed payload in which isOfficialDocument reads as false
    or is absent (reads as undefined), translateDocument returns a result
    whose officialInfo is null, whatever the payload holds under
    officialDetails or anywhere else. The payloads covered are all JSON
    values with fields to read, that is all but the JSON text null. *)
Theorem translateDocument_unofficial_has_no_info
    (generateContent : GenerateContentParameters -> outcome GenAI.GenerateContentResponse)
    (JSON_parse : string -> outcome value)
    (base64Data mimeType targetLanguage : string) (mode : Mode)
    (response : GenAI.GenerateContentResponse) (t : string) (payload : value) :
  generateContent (TranslateRequest "gemini-3-flash-preview" mimeType base64Data
                     targetLanguage (thinkingBudget_of mode)) = Returned response →
  GenAI.text response = Some t → t ≠ "" →
  JSON_parse t = Returned payload →
  get payload "isOfficialDocument" = Returned (VBool false)
    ∨ get payload "isOfficialDocument" = Returned VUndefined →
  ∃ r, translateDocument generateContent JSON_parse base64Data mimeType targetLanguage mode
         = Returned r
       ∧ officialInfo r = None.
Proof.
  intros Hcall Ht Hne Hparse Hflag.
  assert (payload ≠ VUndefined ∧ payload ≠ VNull
          ∧ ToBoolean (default VUndefined (own_property payload "isOfficialDocument")) = false)
    as (Hu & Hn & Hfalsy).
  { destruct Hflag as [H|H]; apply get_returned_inv in H as (? & ? & <-); done. }
  eexists. split.
  - by eapply translateDocument_parsed.
  - simpl. by rewrite Hfalsy.
Qed.

Lemma translateDocument_unofficial_has_no_info_witness :
  ∃ r, translateDocument (service_replying (text_response unofficial_json))
         (parse_only unofficial_json unofficial_payload)
         "JVBERi0=" "application/pdf" "Telugu" speed = Returned r
       ∧ officialInfo r = None.
Proof.
  apply (translateDocument_unofficial_has_no_info
           (service_replying (text_response unofficial_json))
           (parse_only unofficial_json unofficial_payload)
           "JVBERi0=" "application/pdf" "Telugu" speed
           (text_response unofficial_json) unofficial_json unofficial_payload).
  - reflexivity.
  - reflexivity.
  - discriminate.
  - reflexivity.
  - left. reflexivity.
Defined.

(** The JSON text null parses to a payload without fields: reading the flag
    throws, and the call fails with the generic error. *)
Lemma translateDocument_null_payload
    (generateContent : GenerateContentParameters -> outcome GenAI.GenerateContentResponse)
    (JSON_parse : string -> outcome value)
    (base64Data mimeType targetLanguage : string) (mode : Mode)
    (response : GenAI.GenerateContentResponse) (t : string) :
  generateContent (TranslateRequest "gemini-3-flash-preview" mimeType base64Data
                     targetLanguage (thinkingBudget_of mode)) = Returned response →
  GenAI.text response = Some t → t ≠ "" →
  JSON_parse t = Returned VNull →
  translateDocument generateContent JSON_parse base64Data mimeType targetLanguage mode
    = Thrown (Error "Failed to translate document.").
Proof.
  intros Hcall Ht Hne Hparse.
  unfold translateDocument. rewrite Hcall. simpl.
  assert (ToBoolean (string_value (GenAI.text response)) = true) as ->
    by (apply string_value_truthy; eauto).
  rewrite Ht. simpl. by rewrite Hparse.
Qed.

(** C2. When the response text is empty or absent, translateDocument
    returns the canonical empty result without raising: the placeholder
    text, an empty summary, no action items, a null address and a null
    official info. *)
Theorem translateDocument_empty_response
    (generateContent : GenerateContentParameters -> outcome GenAI.GenerateContentResponse)
    (JSON_parse : string -> outcome value)
    (base64Data mimeType targetLanguage : string) (mode : Mode)
    (response : GenAI.GenerateContentResponse) :
  generateContent (TranslateRequest "gemini-3-flash-preview" mimeType base64Data
                     targetLanguage (thinkingBudget_of mode)) = Returned response →
  GenAI.text response = None ∨ GenAI.text response = Some "" →
  translateDocument generateContent JSON_parse base64Data mimeType targetLanguage mode
    = Returned {| text := VStr "Could not extract text.";
                  summary := VStr "";
                  actionItems := VArr [];
                  address := VNull;
                  officialInfo := None |}.
Proof.
  intros Hcall Hempty.
  unfold translateDocument. rewrite Hcall. simpl.
  by apply string_value_falsy in Hempty as ->.
Qed.

Lemma translateDocument_empty_response_witness :
  translateDocument (service_replying (text_response ""))
    (parse_only unofficial_json unofficial_payload)
    "JVBERi0=" "application/pdf" "Telugu" detailed
    = Returned {| text := VStr "Could not extract text.";
                  summary := VStr "";
                  actionItems := VArr [];
                  address := VNull;
                  officialInfo := None |}.
Proof.
  apply (translateDocument_empty_response
           (service_replying (text_response ""))
           (parse_only unofficial_json unofficial_payload)
           "JVBERi0=" "application/pdf" "Telugu" detailed (text_response "")).
  - reflexivity.
  - right. reflexivity.
Defined.

(** C3 as worded fails: for the payload [{"isOfficialDocument":true}] the
    official record is built with all four sub-fields undefined. *)
Lemma official_subfields_not_defaulted :
  ∃ r, translateDocument (service_replying (text_response bare_official_json))
         (parse_only bare_official_json bare_official_payload)
         "JVBERi0=" "application/pdf" "Telugu" speed = Returned r
       ∧ (∃ info, officialInfo r = Some info ∧ goNumber info = VUndefined)
       ∧ ¬ every_optional_field_defaulted r.
Proof.
  eexists. split; [reflexivity|]. split.
  - eexists. split; reflexivity.
  - intros (_ & _ & _ & H). by destruct (H _ eq_refl) as [? _].
Qed.

(** C3, amended. In every result of translateDocument the top-level fields
    text, summary, actionItems and address are never undefined. The result
    is either the canonical empty result of a response without text, or it
    comes from a parsed payload with fields, and then each of these fields
    is the payload's value when that is truthy and otherwise its placeholder
    (the two placeholder texts, the empty array, null). The sub-fields of a
    non-null officialInfo are copied from the payload's officialDetails
    without a default: each is the property found there and undefined when
    officialDetails or the property is absent. *)
Theorem translateDocument_field_defaults
    (generateContent : GenerateContentParameters -> outcome GenAI.GenerateContentResponse)
    (JSON_parse : string -> outcome value)
    (base64Data mimeType targetLanguage : string) (mode : Mode)
    (r : TranslationResult) :
  translateDocument generateContent JSON_parse base64Data mimeType targetLanguage mode
    = Returned r →
  (text r ≠ VUndefined ∧ summary r ≠ VUndefined
   ∧ actionItems r ≠ VUndefined ∧ address r ≠ VUndefined)
  ∧ ((∃ response,
        generateContent (TranslateRequest "gemini-3-flash-preview" mimeType base64Data
                           targetLanguage (thinkingBudget_of mode)) = Returned response
        ∧ (GenAI.text response = None ∨ GenAI.text response = Some "")
        ∧ r = {| text := VStr "Could not extract text.";
                 summary := VStr "";
                 actionItems := VArr [];
                 address := VNull;
                 officialInfo := None |})
     ∨ (∃ response t payload,
          generateContent (TranslateRequest "gemini-3-flash-preview" mimeType base64Data
                             targetLanguage (thinkingBudget_of mode)) = Returned response
          ∧ GenAI.text response = Some t ∧ t ≠ ""
          ∧ JSON_parse t = Returned payload
          ∧ payload ≠ VUndefined ∧ payload ≠ VNull
          ∧ value_or_placeholder (default VUndefined (own_property payload "translation"))
              (VStr "Could not extract text.") (text r)
          ∧ value_or_placeholder (default VUndefined (own_property payload "summary"))
              (VStr "No summary available.") (summary r)
          ∧ value_or_placeholder (default VUndefined (own_property payload "actionItems"))
              (VArr []) (actionItems r)
          ∧ value_or_placeholder (default VUndefined (own_property payload "address"))
              VNull (address r)
          ∧ ∀ info, officialInfo r = Some info →
              isOfficial info = true
              ∧ ∃ details,
                  get payload "officialDetails" = Returned details
                  ∧ goNumber info = default VUndefined (own_property details "goNumber")
                  ∧ department info = default VUndefined (own_property details "department")
                  ∧ date info = default VUndefined (own_property details "date")
                  ∧ subject info = default VUndefined (own_property details "subject"))).
Proof.
  assert (∀ v placeholder, value_or_placeholder v placeholder (or_else v placeholder))
    as Hor.
  { intros v placeholder. unfold value_or_placeholder, or_else.
    destruct (ToBoolean v); auto. }
  intros Hr.
  destruct (generateContent (TranslateRequest "gemini-3-flash-preview" mimeType base64Data
                               targetLanguage (thinkingBudget_of mode)))
    as [response|e] eqn:Hcall; [|unfold translateDocument in Hr; by rewrite Hcall in Hr].
  destruct (ToBoolean (string_value (GenAI.text response))) eqn:Htext.
  - apply string_value_truthy in Htext as (t & Ht & Hne).
    destruct (JSON_parse t) as [payload|e] eqn:Hparse.
    + assert (payload ≠ VUndefined ∧ payload ≠ VNull) as [Hu Hn].
      { unfold translateDocument in Hr. rewrite Hcall in Hr. simpl in Hr.
        assert (ToBoolean (string_value (GenAI.text response)) = true) as Htruthy
          by (apply string_value_truthy; eauto).
        rewrite Htruthy, Ht in Hr. simpl in Hr. rewrite Hparse in Hr.
        by destruct payload. }
      pose proof (translateDocument_parsed generateContent JSON_parse base64Data
                    mimeType targetLanguage mode response t payload
                    Hcall Ht Hne Hparse Hu Hn) as Hparsed.
      simpl in Hparsed. rewrite Hparsed in Hr. injection Hr as <-. simpl.
      split; [repeat split; by apply or_else_defined|].
      right. exists response, t, payload.
      do 6 (split; [done|]). do 4 (split; [by apply Hor|]).
      intros info Hinfo. destruct (ToBoolean _); [|done]. injection Hinfo as <-.
      split; [done|]. eexists. split; [by apply get_returns|]. done.
    + unfold translateDocument in Hr. rewrite Hcall in Hr. simpl in Hr.
      assert (ToBoolean (string_value (GenAI.text response)) = true) as Htruthy
        by (apply string_value_truthy; eauto).
      rewrite Htruthy, Ht in Hr. simpl in Hr. by rewrite Hparse in Hr.
  - unfold translateDocument in Hr. rewrite Hcall in Hr. simpl in Hr.
    rewrite Htext in Hr. injection Hr as <-. simpl.
    split; [done|]. left. exists response. split; [done|].
    split; [by apply string_value_falsy|done].
Qed.

Lemma translateDocument_field_defaults_witness :
  ∃ r, translateDocument (service_replying (text_response official_json))
         (parse_only official_json official_payload)
         "JVBERi0=" "application/pdf" "Telugu" speed = Returned r
       ∧ text r = VStr "Namaste"
       ∧ summary r = VStr "No summary available."
       ∧ actionItems r ≠ VUndefined
       ∧ ∃ info, officialInfo r = Some info
           ∧ goNumber info = VStr "G.O. 12" ∧ subject info = VUndefined.
Proof.
  eexists. split; [reflexivity|].
  pose proof (translateDocument_field_defaults
                (service_replying (text_response official_json))
                (parse_only official_json official_payload)
                "JVBERi0=" "application/pdf" "Telugu" speed _ eq_refl)
    as ((_ & _ & Hitems & _) & _).
  split; [reflexivity|]. split; [reflexivity|]. split; [exact Hitems|].
  eexists. split; [reflexivity|]. split; reflexivity.
Defined.

(** ** The coordinate patterns match the texts of their language *)

Section CoordinatePatterns.

#[local] Arguments String.append !_ _ : simpl nomatch.

Lemma starts_with_Some (c : ascii) (s rest : string) :
  starts_with c s = Some rest ↔ s = String c rest.
Proof.
  destruct s as [|c' s']; simpl; [done|].
  destruct (Ascii.eqb_spec c' c) as [->|Hne]; split; intros [=]; by subst.
Qed.

Lemma match_marker_Some (marker s rest : string) :
  match_marker marker s = Some rest ↔
  ∃ m, s = m ++ rest ∧ same_ignoring_case m marker = true.
Proof.
  revert s. induction marker as [|x marker IH]; intros s; simpl.
  - split.
    + intros [= ->]. by exists "".
    + intros ([|? ?] & -> & Hm); done.
  - destruct s as [|c s'].
    + split; [done|]. intros ([|? ?] & ? & ?); done.
    + destruct (Ascii.eqb (canonicalize c) (canonicalize x)) eqn:Hc.
      * rewrite IH. split.
        -- intros (m & -> & Hm). exists (String c m). simpl. by rewrite Hc.
        -- intros ([|c' m] & Heq & Hm); [done|]. simpl in Heq, Hm.
           injection Heq as <- ->. rewrite Hc in Hm. by exists m.
      * split; [done|]. intros ([|c' m] & Heq & Hm); [done|]. simpl in Heq, Hm.
        injection Heq as <- ->. by rewrite Hc in Hm.
Qed.

Lemma skip_white_space_split (s : string) :
  ∃ spaces, s = spaces ++ skip_white_space s ∧ all_chars is_white_space spaces = true.
Proof.
  induction s as [|c s (spaces & Heq & Hall)]; simpl.
  - by exists "".
  - destruct (is_white_space c) eqn:Hc.
    + exists (String c spaces). simpl. rewrite Hc, Hall. by rewrite <- Heq.
    + by exists "".
Qed.

Lemma skip_white_space_app (spaces s : string) :
  all_chars is_white_space spaces = true →
  skip_white_space (spaces ++ s) = skip_white_space s.
Proof.
  induction spaces as [|c spaces IH]; simpl; [done|].
  intros [-> Hall]%andb_true_iff. by apply IH.
Qed.

Lemma take_digits_split (s : string) :
  s = (take_digits s).1 ++ (take_digits s).2
  ∧ all_chars is_digit (take_digits s).1 = true.
Proof.
  induction s as [|c s [Heq Hall]]; simpl; [done|].
  destruct (is_digit c) eqn:Hc; [|done].
  destruct (take_digits s) as [ds rest]. simpl in *. rewrite Hc, Hall. by rewrite <- Heq.
Qed.

Lemma take_digits_app (digits s : string) :
  all_chars is_digit digits = true → digits ≠ "" →
  (take_digits (digits ++ s)).1 ≠ "".
Proof.
  destruct digits as [|c digits]; [done|]. simpl.
  intros [-> _]%andb_true_iff _. by destruct (take_digits _).
Qed.

Lemma digit_is_no_sign (c : ascii) : is_digit c = true → Ascii.eqb c "-" = false.
Proof.
  intros Hc. destruct (Ascii.eqb_spec c "-") as [->|]; [|done]. discriminate Hc.
Qed.

Lemma digit_is_no_space (c : ascii) : is_digit c = true → is_white_space c = false.
Proof. unfold is_digit, is_white_space. lia. Qed.

Lemma match_unsigned_is_Some (s : string) :
  is_Some (match_unsigned s) ↔ (take_digits s).1 ≠ "".
Proof.
  unfold match_unsigned. destruct (take_digits s) as [int_part s2]. simpl.
  destruct int_part as [|d ds]; simpl.
  - split; [by intros [? ?]|done].
  - split; [done|]. intros _.
    destruct (starts_with "." s2) as [s3|]; [|by eexists].
    destruct (take_digits s3) as [frac ?]. destruct (is_empty frac); by eexists.
Qed.

(** The number pattern matches at the start of [s] exactly when [s] starts
    with an optional minus sign and a digit. *)
Lemma match_number_is_Some (s : string) :
  is_Some (match_number s) ↔
  ∃ sign digits after,
    s = sign ++ digits ++ after ∧ (sign = "" ∨ sign = "-")
    ∧ digits ≠ "" ∧ all_chars is_digit digits = true.
Proof.
  unfold match_number. split.
  - destruct (starts_with "-" s) as [s'|] eqn:Hsign.
    + apply starts_with_Some in Hsign as ->.
      rewrite fmap_is_Some, match_unsigned_is_Some. intros Hne.
      destruct (take_digits_split s') as [Heq Hall].
      exists "-", (take_digits s').1, (take_digits s').2. rewrite <- Heq. auto.
    + rewrite match_unsigned_is_Some. intros Hne.
      destruct (take_digits_split s) as [Heq Hall].
      exists "", (take_digits s).1, (take_digits s).2. auto.
  - intros (sign & digits & after & -> & [->| ->] & Hne & Hall).
    + assert (starts_with "-" ("" ++ digits ++ after) = None) as ->.
      { destruct digits as [|d ds]; [done|]. simpl in Hall.
        apply andb_true_iff in Hall as [Hd _].
        change ("" ++ String d ds ++ after) with (String d (ds ++ after)).
        unfold starts_with. by rewrite (digit_is_no_sign d Hd). }
      apply match_unsigned_is_Some. by apply (take_digits_app digits after).
    + assert (starts_with "-" ("-" ++ digits ++ after) = Some (digits ++ after)) as ->
        by done.
      rewrite fmap_is_Some. apply match_unsigned_is_Some.
      by apply (take_digits_app digits after).
Qed.

Lemma match_here_is_Some (marker s : string) :
  is_Some (match_here marker s) ↔
  ∃ m spaces sign digits after,
    s = m ++ spaces ++ sign ++ digits ++ after
    ∧ same_ignoring_case m marker = true
    ∧ all_chars is_white_space spaces = true
    ∧ (sign = "" ∨ sign = "-")
    ∧ digits ≠ "" ∧ all_chars is_digit digits = true.
Proof.
  unfold match_here. split.
  - destruct (match_marker marker s) as [rest|] eqn:Hmarker; simpl; [|by intros [? ?]].
    apply match_marker_Some in Hmarker as (m & -> & Hm).
    intros (sign & digits & after & Heq & Hsign & Hne & Hall)%match_number_is_Some.
    destruct (skip_white_space_split rest) as (spaces & Hrest & Hspaces).
    exists m, spaces, sign, digits, after. rewrite <- Heq, <- Hrest. by repeat split.
  - intros (m & spaces & sign & digits & after & -> & Hm & Hspaces & Hsign & Hne & Hall).
    assert (match_marker marker (m ++ spaces ++ sign ++ digits ++ after)
            = Some (spaces ++ sign ++ digits ++ after)) as ->
      by (apply match_marker_Some; eauto).
    simpl. rewrite skip_white_space_app by done.
    assert (skip_white_space (sign ++ digits ++ after) = sign ++ digits ++ after) as ->.
    { destruct digits as [|d ds]; [done|]. simpl in Hall.
      apply andb_true_iff in Hall as [Hd _].
      destruct Hsign as [->| ->]; simpl; [|done].
      by rewrite (digit_is_no_space d Hd). }
    apply match_number_is_Some. by exists sign, digits, after.
Qed.

Lemma regex_match_unfold (marker s : string) :
  regex_match marker s =
  match match_here marker s with
  | Some group1 => Some group1
  | None =>
      match s with
      | String _ s' => regex_match marker s'
      | EmptyString => None
      end
  end.
Proof. by destruct s. Qed.

(** [text.match(pattern)] is not null exactly when the text contains a
    match of the pattern. *)
Lemma regex_match_is_Some (marker s : string) :
  is_Some (regex_match marker s) ↔ contains_coordinate marker s.
Proof.
  split.
  - induction s as [|c s IH]; simpl.
    + destruct (match_here marker "") as [g|] eqn:Hhere; [|by intros [? ?]].
      intros _.
      assert (is_Some (match_here marker "")) as Hsome by (by rewrite Hhere).
      apply match_here_is_Some in Hsome
        as (m & spaces & sign & digits & after & Heq & ? & ? & ? & ? & ?).
      by apply (contains_coordinate_intro marker "" "" m spaces sign digits after).
    + destruct (match_here marker (String c s)) as [g|] eqn:Hhere.
      * intros _.
        assert (is_Some (match_here marker (String c s))) as Hsome by (by rewrite Hhere).
        apply match_here_is_Some in Hsome
          as (m & spaces & sign & digits & after & Heq & ? & ? & ? & ? & ?).
        by apply (contains_coordinate_intro marker _ "" m spaces sign digits after).
      * intros [before m spaces sign digits after -> ? ? ? ? ?]%IH.
        by apply (contains_coordinate_intro marker _ (String c before)
                    m spaces sign digits after).
  - intros [before m spaces sign digits after -> Hm Hspaces Hsign Hne Hall].
    induction before as [|c before IH]; rewrite regex_match_unfold.
    + assert (is_Some (match_here marker (m ++ spaces ++ sign ++ digits ++ after)))
        as [g Hg] by (apply match_here_is_Some; by exists m, spaces, sign, digits, after).
      change ("" ++ m ++ spaces ++ sign ++ digits ++ after)
        with (m ++ spaces ++ sign ++ digits ++ after).
      by rewrite Hg.
    + by destruct (match_here marker _).
Qed.

End CoordinatePatterns.

(** ** resolveLocation *)

Lemma first_web_uri_hit (chunk : GenAI.GroundingChunk) (rest : list GenAI.GroundingChunk)
    (u : string) :
  exposes_web_uri chunk u → first_web_uri (chunk :: rest) = Some u.
Proof.
  intros (w & Hw & Hu & Hne). simpl. rewrite Hw. simpl. rewrite Hu. simpl.
  by destruct (String.eqb_spec u "").
Qed.

Lemma first_web_uri_miss (chunk : GenAI.GroundingChunk) (rest : list GenAI.GroundingChunk) :
  (∀ u, ¬ exposes_web_uri chunk u) → first_web_uri (chunk :: rest) = first_web_uri rest.
Proof.
  intros Hno. simpl.
  destruct (ToBoolean (string_value (GenAI.web chunk ≫= GenAI.uri))) eqn:Ht; [|done].
  apply string_value_truthy in Ht as (u & Hu & Hne).
  destruct (Hno u). unfold exposes_web_uri.
  destruct (GenAI.web chunk) as [w|]; [|done]. by exists w.
Qed.

Lemma first_web_uri_skip (before rest : list GenAI.GroundingChunk) :
  (∀ c u, c ∈ before → ¬ exposes_web_uri c u) →
  first_web_uri (before ++ rest) = first_web_uri rest.
Proof.
  induction before as [|c before IH]; intros Hno; [done|].
  rewrite <- app_comm_cons, first_web_uri_miss.
  - apply IH. intros c' u Hin. apply Hno. by right.
  - intros u. apply Hno. by left.
Qed.

Lemma first_web_uri_none (chunks : list GenAI.GroundingChunk) :
  (∀ c u, c ∈ chunks → ¬ exposes_web_uri c u) → first_web_uri chunks = None.
Proof.
  intros Hno. rewrite <- (app_nil_r chunks). by rewrite first_web_uri_skip.
Qed.

(** The optional chain [response.candidates?.[0]?.groundingMetadata?.groundingChunks]
    reads the grounding references. *)
Lemma grounding_chain (response : GenAI.GenerateContentResponse)
    (chunks : list GenAI.GroundingChunk) :
  (GenAI.candidates response ≫= λ cs, cs !! 0%nat ≫= λ c,
     GenAI.groundingMetadata c ≫= GenAI.groundingChunks) = Some chunks
  ↔ grounding_references response chunks.
Proof.
  split.
  - destruct (GenAI.candidates response) as [[|c cs]|] eqn:Hcs; simpl; try done.
    destruct (GenAI.groundingMetadata c) as [m|] eqn:Hm; simpl; try done.
    intros Hchunks. by econstructor.
  - intros [c cs m Hcs Hm Hchunks]. rewrite Hcs. simpl. rewrite Hm.
    done.
Qed.

(** The outcome of resolveLocation once the service has answered. *)
Lemma resolveLocation_answered
    (generateContent : GenerateContentParameters -> outcome GenAI.GenerateContentResponse)
    (address : string) (response : GenAI.GenerateContentResponse) :
  generateContent (GeocodeRequest "gemini-2.5-flash" address) = Returned response →
  let text := string_or (GenAI.text response) "" in
  resolveLocation generateContent address = Returned
    {| latitude := lat ← regex_match "LAT:" text; _ ← regex_match "LNG:" text;
                   Some (parseFloat lat);
       longitude := _ ← regex_match "LAT:" text; lng ← regex_match "LNG:" text;
                    Some (parseFloat lng);
       mapUri := (GenAI.candidates response ≫= λ cs, cs !! 0%nat ≫= λ c,
                    GenAI.groundingMetadata c ≫= GenAI.groundingChunks)
                 ≫= first_web_uri |}.
Proof.
  intros Hcall text. unfold resolveLocation. rewrite Hcall. simpl. fold text.
  destruct (regex_match "LAT:" text), (regex_match "LNG:" text); simpl;
    by destruct (GenAI.candidates response ≫= _).
Qed.

(** C5. Latitude and longitude are reported only when the response text
    contains a match of both coordinate patterns, the one after [LAT:] and
    the one after [LNG:], and then both are reported; when either pattern
    has no match, both are left undefined. A text that holds only
    [LAT: 12.34] matches the first pattern alone and yields neither
    coordinate. *)
Theorem resolveLocation_coordinates_all_or_nothing
    (generateContent : GenerateContentParameters -> outcome GenAI.GenerateContentResponse)
    (address : string) (response : GenAI.GenerateContentResponse) :
  generateContent (GeocodeRequest "gemini-2.5-flash" address) = Returned response →
  ∃ r, resolveLocation generateContent address = Returned r
    ∧ let text := string_or (GenAI.text response) "" in
      (is_Some (latitude r) ∨ is_Some (longitude r) →
         contains_coordinate "LAT:" text ∧ contains_coordinate "LNG:" text)
      ∧ (contains_coordinate "LAT:" text ∧ contains_coordinate "LNG:" text →
         is_Some (latitude r) ∧ is_Some (longitude r))
      ∧ (¬ contains_coordinate "LAT:" text ∨ ¬ contains_coordinate "LNG:" text →
         latitude r = None ∧ longitude r = None)
      ∧ (GenAI.text response = Some "LAT: 12.34" →
         contains_coordinate "LAT:" text ∧ ¬ contains_coordinate "LNG:" text
         ∧ latitude r = None ∧ longitude r = None).
Proof.
  intros Hcall. eexists. split; [by apply resolveLocation_answered|].
  simpl. rewrite <- !regex_match_is_Some.
  split; [|split; [|split]].
  - destruct (regex_match "LAT:" _), (regex_match "LNG:" _); simpl;
      intros [[? [=]]|[? [=]]]; eauto.
  - intros [[lat ->] [lng ->]]. simpl. eauto.
  - destruct (regex_match "LAT:" _), (regex_match "LNG:" _); simpl; try done.
    intros [H|H]; destruct H; eauto.
  - intros ->. split; [by eexists|]. split; [by intros [? [=]]|]. done.
Qed.

Lemma resolveLocation_coordinates_all_or_nothing_witness :
  ∃ r, resolveLocation (service_replying (geocode_response "LAT: 12.34" [])) "12 MG Road"
         = Returned r
       ∧ latitude r = None ∧ longitude r = None.
Proof.
  destruct (resolveLocation_coordinates_all_or_nothing
              (service_replying (geocode_response "LAT: 12.34" [])) "12 MG Road"
              (geocode_response "LAT: 12.34" []) eq_refl)
    as (r & Hr & _ & _ & _ & Hexample).
  exists r. split; [exact Hr|]. by destruct (Hexample eq_refl) as (_ & _ & ? & ?).
Defined.

(** C6. For the response text [LAT: 12.9716, LNG: 77.5946] the latitude is
    the number 12.9716 and the longitude the number 77.5946. *)
Theorem resolveLocation_reads_both_coordinates
    (generateContent : GenerateContentParameters -> outcome GenAI.GenerateContentResponse)
    (address : string) (response : GenAI.GenerateContentResponse) :
  generateContent (GeocodeRequest "gemini-2.5-flash" address) = Returned response →
  GenAI.text response = Some "LAT: 12.9716, LNG: 77.5946" →
  ∃ r, resolveLocation generateContent address = Returned r
    ∧ latitude r = Some 12.9716%float
    ∧ longitude r = Some 77.5946%float.
Proof.
  intros Hcall Htext. eexists. split; [by apply resolveLocation_answered|].
  rewrite Htext. split; reflexivity.
Qed.

Lemma resolveLocation_reads_both_coordinates_witness :
  ∃ r, resolveLocation
         (service_replying (geocode_response "LAT: 12.9716, LNG: 77.5946" []))
         "Vidhana Soudha, Bengaluru" = Returned r
       ∧ latitude r = Some 12.9716%float
       ∧ longitude r = Some 77.5946%float.
Proof.
  apply (resolveLocation_reads_both_coordinates
           (service_replying (geocode_response "LAT: 12.9716, LNG: 77.5946" []))
           "Vidhana Soudha, Bengaluru"
           (geocode_response "LAT: 12.9716, LNG: 77.5946" [])).
  - reflexivity.
  - reflexivity.
Defined.

(** C9. The map URI is the web URI of the first grounding reference that
    exposes one, the references before it that expose none being skipped;
    when no reference exposes a web URI, or the response carries no
    reference list, the map URI is left unset. *)
Theorem resolveLocation_map_uri_is_first_web_uri
    (generateContent : GenerateContentParameters -> outcome GenAI.GenerateContentResponse)
    (address : string) (response : GenAI.GenerateContentResponse) :
  generateContent (GeocodeRequest "gemini-2.5-flash" address) = Returned response →
  ∃ r, resolveLocation generateContent address = Returned r
    ∧ (∀ (chunks before after : list GenAI.GroundingChunk) chunk u,
         grounding_references response chunks →
         chunks = (before ++ chunk :: after)%list →
         (∀ c u', c ∈ before → ¬ exposes_web_uri c u') →
         exposes_web_uri chunk u →
         mapUri r = Some u)
    ∧ ((∀ chunks, grounding_references response chunks →
          ∀ c u, c ∈ chunks → ¬ exposes_web_uri c u) →
       mapUri r = None).
Proof.
  intros Hcall. eexists. split; [by apply resolveLocation_answered|].
  simpl. split.
  - intros chunks before after chunk u Hrefs -> Hskip Hexp.
    apply grounding_chain in Hrefs as ->. simpl.
    rewrite first_web_uri_skip by done. by apply first_web_uri_hit.
  - intros Hnone.
    destruct (GenAI.candidates response ≫= _) as [chunks|] eqn:Hchain; [|done].
    simpl. apply first_web_uri_none. apply Hnone. by apply grounding_chain.
Qed.

Lemma resolveLocation_map_uri_is_first_web_uri_witness :
  ∃ r, resolveLocation
         (service_replying
            (geocode_response "LAT: 12.9716, LNG: 77.5946"
               [plain_chunk; web_chunk ""; web_chunk "https://maps.example/place/1";
                web_chunk "https://maps.example/place/2"]))
         "Vidhana Soudha, Bengaluru" = Returned r
       ∧ mapUri r = Some "https://maps.example/place/1".
Proof.
  destruct (resolveLocation_map_uri_is_first_web_uri
              (service_replying
                 (geocode_response "LAT: 12.9716, LNG: 77.5946"
                    [plain_chunk; web_chunk ""; web_chunk "https://maps.example/place/1";
                     web_chunk "https://maps.example/place/2"]))
              "Vidhana Soudha, Bengaluru" _ eq_refl)
    as (r & Hr & Hfirst & _).
  exists r. split; [exact Hr|].
  apply (Hfirst [plain_chunk; web_chunk ""; web_chunk "https://maps.example/place/1";
                 web_chunk "https://maps.example/place/2"]
           [plain_chunk; web_chunk ""] [web_chunk "https://maps.example/place/2"]
           (web_chunk "https://maps.example/place/1")).
  - by econstructor.
  - reflexivity.
  - intros c u' Hin (w & Hw & Hu & Hne).
    apply elem_of_cons in Hin as [->|Hin]; [done|].
    apply elem_of_cons in Hin as [->|Hin]; [|by apply elem_of_nil in Hin].
    simpl in Hw. injection Hw as <-. simpl in Hu. injection Hu as <-. done.
  - eexists. split; [reflexivity|]. split; [reflexivity|done].
Defined.

(** C7. When the remote call fails, translateDocument raises the generic
    error [Failed to translate document.], whereas resolveLocation returns
    the empty result [{}]; resolveLocation raises no error whatever happens
    inside it. *)
Theorem remote_failure_raised_by_translate_swallowed_by_geocode
    (generateContent : GenerateContentParameters -> outcome GenAI.GenerateContentResponse)
    (JSON_parse : string -> outcome value) :
  (∀ base64Data mimeType targetLanguage mode e,
     generateContent (TranslateRequest "gemini-3-flash-preview" mimeType base64Data
                        targetLanguage (thinkingBudget_of mode)) = Thrown e →
     translateDocument generateContent JSON_parse base64Data mimeType targetLanguage mode
       = Thrown (Error "Failed to translate document."))
  ∧ (∀ address e,
       generateContent (GeocodeRequest "gemini-2.5-flash" address) = Thrown e →
       resolveLocation generateContent address
         = Returned {| latitude := None; longitude := None; mapUri := None |})
  ∧ (∀ address, ∃ r, resolveLocation generateContent address = Returned r).
Proof.
  split; [|split].
  - intros base64Data mimeType targetLanguage mode e Hcall.
    unfold translateDocument. by rewrite Hcall.
  - intros address e Hcall. unfold resolveLocation. by rewrite Hcall.
  - intros address.
    destruct (generateContent (GeocodeRequest "gemini-2.5-flash" address))
      as [response|e] eqn:Hcall.
    + eexists. by apply resolveLocation_answered.
    + eexists. unfold resolveLocation. by rewrite Hcall.
Qed.

Lemma remote_failure_raised_by_translate_swallowed_by_geocode_witness :
  translateDocument service_down (parse_only unofficial_json unofficial_payload)
    "JVBERi0=" "application/pdf" "Telugu" speed
    = Thrown (Error "Failed to translate document.")
  ∧ resolveLocation service_down "12 MG Road"
    = Returned {| latitude := None; longitude := None; mapUri := None |}.
Proof.
  destruct (remote_failure_raised_by_translate_swallowed_by_geocode
              service_down (parse_only unofficial_json unofficial_payload))
    as (Htranslate & Hgeocode & _).
  split.
  - apply (Htranslate "JVBERi0=" "application/pdf" "Telugu" speed
             (ApiError 503 "Service Unavailable")).
    reflexivity.
  - apply (Hgeocode "12 MG Road" (ApiError 503 "Service Unavailable")).
    reflexivity.
Defined.

(** ** generateSpeech *)

(** The optional chain
    [response.candidates?.[0]?.content?.parts?.[0]?.inlineData?.data] is
    truthy exactly when the response has an audio payload. *)
Lemma audio_chain (response : GenAI.GenerateContentResponse) (audio : string) :
  (GenAI.candidates response ≫= λ cs, cs !! 0%nat ≫= λ c, GenAI.content c ≫= λ ct,
     GenAI.parts ct ≫= λ ps, ps !! 0%nat ≫= λ p, GenAI.inlineData p ≫= λ b, GenAI.data b)
    = Some audio ∧ audio ≠ ""
  ↔ audio_payload response audio.
Proof.
  split.
  - intros [Hchain Hne].
    destruct (GenAI.candidates response) as [[|c cs]|] eqn:Hcs; simpl in Hchain; try done.
    destruct (GenAI.content c) as [ct|] eqn:Hct; simpl in Hchain; try done.
    destruct (GenAI.parts ct) as [[|p ps]|] eqn:Hps; simpl in Hchain; try done.
    destruct (GenAI.inlineData p) as [b|] eqn:Hb; simpl in Hchain; try done.
    by econstructor.
  - intros [c cs ct p ps b Hcs Hct Hps Hb Hdata Hne]. split; [|done].
    rewrite Hcs. simpl. rewrite Hct. simpl. rewrite Hps. simpl. rewrite Hb. done.
Qed.

(** C8. generateSpeech raises the generic error [Failed to generate
    speech.] exactly when the remote call fails or the response has no audio
    payload; it raises nothing else, and otherwise it returns the base64
    audio payload of the response. *)
Theorem generateSpeech_fails_iff_call_fails_or_no_audio
    (generateContent : GenerateContentParameters -> outcome GenAI.GenerateContentResponse)
    (text : string) :
  (generateSpeech generateContent text = Thrown (Error "Failed to generate speech.")
   ↔ (∃ e, generateContent (SpeechRequest "gemini-2.5-flash-preview-tts" text "Kore")
             = Thrown e)
     ∨ (∃ response,
          generateContent (SpeechRequest "gemini-2.5-flash-preview-tts" text "Kore")
            = Returned response
          ∧ ∀ audio, ¬ audio_payload response audio))
  ∧ (∀ e, generateSpeech generateContent text = Thrown e →
          e = Error "Failed to generate speech.")
  ∧ (∀ response audio,
       generateContent (SpeechRequest "gemini-2.5-flash-preview-tts" text "Kore")
         = Returned response →
       audio_payload response audio →
       generateSpeech generateContent text = Returned audio).
Proof.
  unfold generateSpeech.
  destruct (generateContent _) as [response|e] eqn:Hcall; simpl.
  - set (chain := GenAI.candidates response ≫= _).
    destruct (ToBoolean (string_value chain)) eqn:Htruthy; simpl.
    + apply string_value_truthy in Htruthy as (audio & Hchain & Hne).
      rewrite Hchain. simpl.
      assert (audio_payload response audio) as Hpayload
        by (apply audio_chain; by rewrite <- Hchain).
      split; [|split].
      * split; [done|]. intros [[e [=]]|(response' & [= <-] & Hnone)].
        by destruct (Hnone audio).
      * done.
      * intros response' audio' [= <-] Hpayload'.
        apply audio_chain in Hpayload' as [Hchain' _].
        fold chain in Hchain'. congruence.
    + split; [|split].
      * split; [|done]. intros _. right. exists response. split; [done|].
        intros audio Hpayload. apply audio_chain in Hpayload as [Hchain Hne].
        fold chain in Hchain.
        assert (ToBoolean (string_value chain) = true)
          by (apply string_value_truthy; eauto).
        congruence.
      * by intros e [= <-].
      * intros response' audio [= <-] Hpayload.
        apply audio_chain in Hpayload as [Hchain Hne]. fold chain in Hchain.
        assert (ToBoolean (string_value chain) = true)
          by (apply string_value_truthy; eauto).
        congruence.
  - split; [|split].
    + split; [eauto|done].
    + by intros e' [= <-].
    + done.
Qed.

Lemma generateSpeech_fails_iff_call_fails_or_no_audio_witness :
  generateSpeech service_down "Namaste" = Thrown (Error "Failed to generate speech.")
  ∧ generateSpeech (service_replying (speech_response None)) "Namaste"
    = Thrown (Error "Failed to generate speech.")
  ∧ generateSpeech (service_replying (speech_response (Some "AAAAQADA/38="))) "Namaste"
    = Returned "AAAAQADA/38=".
Proof.
  split; [|split].
  - apply (generateSpeech_fails_iff_call_fails_or_no_audio service_down "Namaste").
    left. by eexists.
  - apply (generateSpeech_fails_iff_call_fails_or_no_audio
             (service_replying (speech_response None)) "Namaste").
    right. eexists. split; [reflexivity|].
    intros audio [c cs ct p ps b Hcs Hct Hps Hb Hdata _].
    injection Hcs as <- <-. injection Hct as <-. injection Hps as <- <-.
    injection Hb as <-. discriminate Hdata.
  - apply (generateSpeech_fails_iff_call_fails_or_no_audio
             (service_replying (speech_response (Some "AAAAQADA/38="))) "Namaste")
      with (response := speech_response (Some "AAAAQADA/38=")).
    + reflexivity.
    + by econstructor.
Defined.

(** ** decode and decodeAudioData *)

(** A loop that writes [g i] at every index of an array fills it with
    [g 0 .. g (n - 1)]. *)
Lemma for_range_fill {A : Type} (g : nat → A) (l : list A) :
  for_range (length l) (λ i a, <[i := g i]> a) l = g <$> seq 0 (length l).
Proof.
  unfold for_range.
  assert (∀ k, (k ≤ length l)%nat →
            foldl (λ a i, <[i := g i]> a) l (seq 0 k) = ((g <$> seq 0 k) ++ drop k l)%list)
    as Hinv.
  { induction k as [|k IH]; intros Hk; [by rewrite drop_0|].
    rewrite seq_S, foldl_app, fmap_app. simpl. rewrite IH by lia.
    destruct (lookup_lt_is_Some_2 l k) as [x Hx]; [lia|].
    rewrite (drop_S l x k Hx).
    rewrite insert_app_r_alt; rewrite length_fmap, length_seq; [|lia].
    rewrite Nat.sub_diag. simpl. by rewrite <- app_assoc. }
  rewrite Hinv by lia. by rewrite drop_all, app_nil_r.
Qed.

Lemma charCode_byte (c : ascii) : 0 ≤ charCode c < 256.
Proof. unfold charCode. pose proof (N_ascii_bounded c). lia. Qed.

Lemma string_get_lookup (s : string) (i : nat) :
  String.get i s = list_ascii_of_string s !! i.
Proof.
  revert i. induction s as [|c s IH]; intros [|i]; simpl; auto.
Qed.

Lemma list_ascii_length (s : string) :
  length (list_ascii_of_string s) = String.length s.
Proof. induction s; simpl; congruence. Qed.

(** The bytes of the decoded buffer are the character codes of the binary
    string, in order. *)
Lemma decode_bytes (base64 binaryString : string) :
  atob base64 = Returned binaryString →
  decode base64 = Returned (charCode <$> list_ascii_of_string binaryString).
Proof.
  intros Hatob. unfold decode. rewrite Hatob. simpl. f_equal.
  set (len := String.length binaryString).
  rewrite <- (length_replicate len 0) at 1.
  rewrite for_range_fill, length_replicate.
  apply list_eq. intros i. rewrite !list_lookup_fmap.
  destruct (decide (i < len)%nat) as [Hi|Hi].
  - rewrite lookup_seq_lt by done. simpl.
    unfold charCodeAt. rewrite string_get_lookup.
    destruct (lookup_lt_is_Some_2 (list_ascii_of_string binaryString) i) as [c Hc];
      [by rewrite list_ascii_length|].
    rewrite Hc. simpl. f_equal. apply Z.mod_small, charCode_byte.
  - rewrite lookup_seq_ge by lia.
    rewrite lookup_ge_None_2; [done|]. rewrite list_ascii_length. fold len. lia.
Qed.

Lemma list_pair_ind {A : Type} (P : list A → Prop) :
  P [] → (∀ x, P [x]) → (∀ x y l, P l → P (x :: y :: l)) → ∀ l, P l.
Proof.
  intros Hnil Hone Hstep.
  fix IH 1. intros [|x [|y l]]; [done..|]. apply Hstep, IH.
Qed.

Lemma int16_elements_length (bytes : list Z) :
  length (int16_elements bytes) = (length bytes / 2)%nat.
Proof.
  induction bytes as [|x|x y l IH] using list_pair_ind; [done..|].
  simpl length. rewrite IH.
  change (S (S (length l))) with (1 * 2 + length l)%nat.
  by rewrite Nat.div_add_l.
Qed.

Lemma int16_elements_lookup (bytes : list Z) (i : nat) (lo hi : Z) :
  bytes !! (2 * i)%nat = Some lo →
  bytes !! (2 * i + 1)%nat = Some hi →
  int16_elements bytes !! i = Some (ToInt16 (Z.lor lo (Z.shiftl hi 8))).
Proof.
  revert bytes. induction i as [|i IH]; intros [|x [|y l]]; try done.
  - simpl. by intros [= ->] [= ->].
  - replace (2 * S i)%nat with (S (S (2 * i))) by lia. simpl.
    intros Hlo Hhi. apply IH; [done|].
    by replace (2 * i + 1)%nat with (i + (i + 0) + 1)%nat by lia.
Qed.

(** Two bytes in little-endian order denote [lo + 256 * hi], and ToInt16
    reads that as a two's complement 16-bit integer. *)
Lemma little_endian_pair (lo hi : Z) :
  0 ≤ lo < 256 → 0 ≤ hi < 256 → Z.lor lo (Z.shiftl hi 8) = lo + 256 * hi.
Proof.
  intros Hlo Hhi. pose proof (Z.add_lor_land lo (Z.shiftl hi 8)) as Hsum.
  assert (Z.land lo (Z.shiftl hi 8) = 0) as Hland.
  { apply Z.bits_inj'. intros n Hn. rewrite Z.land_spec, Z.bits_0.
    destruct (Z.lt_ge_cases n 8).
    - rewrite (Z.shiftl_spec_low hi 8 n) by done. apply andb_false_r.
    - rewrite (Z.bits_above_log2 lo n); [done|lia|].
      destruct (Z.eq_dec lo 0) as [->|]; [simpl; lia|].
      apply Z.log2_lt_pow2; [lia|].
      assert (2 ^ 8 ≤ 2 ^ n) as Hpow by (apply Z.pow_le_mono_r; lia).
      change (2 ^ 8) with 256 in Hpow. lia. }
  rewrite Hland in Hsum. rewrite (Z.shiftl_mul_pow2 hi 8) in * by lia.
  change (2 ^ 8) with 256 in *. lia.
Qed.

Lemma ToInt16_signed (u : Z) :
  0 ≤ u < 65536 → -32768 ≤ ToInt16 u < 32768 ∧ (ToInt16 u - u) mod 65536 = 0.
Proof.
  intros Hu. unfold ToInt16. destruct (Z.ltb_spec u 32768).
  - split; [lia|]. by rewrite Z.sub_diag.
  - split; [lia|]. by replace (u - 65536 - u) with (-65536) by lia.
Qed.

(** C10. When the base64 input decodes to an odd number of bytes,
    decodeAudioData fails: laying the 16-bit view over the byte buffer raises
    a RangeError, and no buffer with the trailing byte cut off is
    returned. *)
Theorem decodeAudioData_odd_length_raises (base64Data : string) (ctx : AudioContext)
    (rate : option float) (binaryString : string) :
  atob base64Data = Returned binaryString →
  Nat.odd (String.length binaryString) = true →
  decodeAudioData base64Data ctx rate = Thrown RangeError.
Proof.
  intros Hatob Hodd. unfold decodeAudioData.
  rewrite (decode_bytes _ _ Hatob). simpl.
  unfold Int16Array_of_buffer. rewrite length_fmap, list_ascii_length.
  rewrite <- Nat.negb_odd, Hodd. done.
Qed.

(** For an even byte length the one channel of the buffer holds, sample by
    sample, the stored quotient of each 16-bit element by 32768. *)
Lemma decodeAudioData_even (base64Data : string) (ctx : AudioContext) (rate : option float)
    (binaryString : string) (silent : AudioBuffer) :
  atob base64Data = Returned binaryString →
  Nat.even (String.length binaryString) = true →
  createBuffer ctx 1 (String.length binaryString / 2) (default 24000%float rate)
    = Returned silent →
  decodeAudioData base64Data ctx rate = Returned
    {| sampleRate := fround (default 24000%float rate);
       channels :=
         [ (λ z, fround (number_of_Z z / 32768)%float)
             <$> int16_elements (charCode <$> list_ascii_of_string binaryString) ] |}.
Proof.
  intros Hatob Heven Hcreate. unfold decodeAudioData.
  rewrite (decode_bytes _ _ Hatob). simpl.
  set (bytes := charCode <$> list_ascii_of_string binaryString).
  assert (length bytes = String.length binaryString) as Hlen
    by (unfold bytes; by rewrite length_fmap, list_ascii_length).
  unfold Int16Array_of_buffer. rewrite Hlen, Heven. simpl.
  replace (Nat.divmod (length (int16_elements bytes)) 0 0 0).1
    with (length (int16_elements bytes)) by (symmetry; apply Nat.div_1_r).
  rewrite int16_elements_length, Hlen.
  set (n := (String.length binaryString / 2)%nat) in *.
  rewrite Hcreate. simpl.
  unfold createBuffer, to_float in Hcreate.
  destruct (PrimFloat.is_finite _); [|done]. simpl in Hcreate.
  destruct (_ || _); [done|]. injection Hcreate as <-. simpl.
  unfold setChannelData. simpl. do 3 f_equal.
  rewrite <- (length_replicate n 0%float) at 1.
  rewrite (for_range_fill
             (λ i, fround (element_number (int16_elements bytes !! (i * 1 + 0)%nat)
                           / 32768)%float)).
  rewrite length_replicate.
  apply list_eq. intros i. rewrite !list_lookup_fmap.
  destruct (decide (i < n)%nat) as [Hi|Hi].
  - rewrite lookup_seq_lt by done. simpl.
    replace (i * 1 + 0)%nat with i by lia.
    destruct (lookup_lt_is_Some_2 (int16_elements bytes) i) as [z Hz];
      [by rewrite int16_elements_length, Hlen|].
    by rewrite Hz.
  - rewrite lookup_seq_ge by lia. simpl.
    rewrite lookup_ge_None_2; [done|]. rewrite int16_elements_length, Hlen. fold n. lia.
Qed.

(** The enumeration covers every number below [2 ^ bits]. *)
Lemma all_below_spec (bits : nat) (k : Z → bool) (acc u : Z) :
  all_below bits k acc = true →
  0 ≤ u < 2 ^ Z.of_nat bits →
  k (acc * 2 ^ Z.of_nat bits + u) = true.
Proof.
  revert acc u. induction bits as [|b IH]; intros acc u; simpl all_below.
  - intros Hk Hu. change (2 ^ Z.of_nat 0) with 1 in *.
    by replace (acc * 1 + u) with acc by lia.
  - intros [Hlow Hhigh]%andb_true_iff Hu.
    rewrite Nat2Z.inj_succ, Z.pow_succ_r in * by lia.
    destruct (Z.lt_ge_cases u (2 ^ Z.of_nat b)).
    + replace (acc * (2 * 2 ^ Z.of_nat b) + u)
        with (2 * acc * 2 ^ Z.of_nat b + u) by lia.
      apply IH; [done|lia].
    + replace (acc * (2 * 2 ^ Z.of_nat b) + u)
        with ((2 * acc + 1) * 2 ^ Z.of_nat b + (u - 2 ^ Z.of_nat b)) by lia.
      apply IH; [done|lia].
Qed.

Lemma all_int16_stored_unchanged : all_below 16 stored_unchanged 0 = true.
Proof. vm_compute. reflexivity. Qed.

(** A 16-bit integer divided by 32768.0 is a binary32 number, so storing it
    in the channel leaves it as it is. *)
Lemma fround_int16_sample (v : Z) :
  -32768 ≤ v < 32768 →
  fround (number_of_Z v / 32768)%float = (number_of_Z v / 32768)%float.
Proof.
  intros Hv.
  pose proof (all_below_spec 16 stored_unchanged 0 (v + 32768)
                all_int16_stored_unchanged) as Hstored.
  change (2 ^ Z.of_nat 16) with 65536 in Hstored.
  unfold stored_unchanged in Hstored.
  replace (0 * 65536 + (v + 32768) - 32768) with v in Hstored by lia.
  apply FloatAxioms.Leibniz.eqb_spec, Hstored. lia.
Qed.

Lemma decodeAudioData_odd_length_raises_witness :
  atob "AAAA" = Returned (String "000" (String "000" (String "000" EmptyString)))
  ∧ decodeAudioData "AAAA" reference_context None = Thrown RangeError.
Proof.
  split; [reflexivity|].
  apply (decodeAudioData_odd_length_raises "AAAA" reference_context None
           (String "000" (String "000" (String "000" EmptyString)))).
  - reflexivity.
  - reflexivity.
Defined.

(** C4. When the base64 input decodes to an even number of bytes and the
    context grants the buffer, decodeAudioData returns one channel with one
    sample per byte pair: the pair [lo, hi] is read as the signed 16-bit
    integer with low byte [lo], and the sample is that integer divided by
    32768.0. The buffer carries the sample rate as the context stores it, a
    binary32 number. The bytes of the int16 values 0, 16384, -16384, 32767
    decode to the four samples 0.0, 0.5, -0.5 and 32767/32768, four frames
    at 24000 Hz. *)
Theorem decodeAudioData_little_endian_int16_samples :
  (∀ (base64Data : string) (ctx : AudioContext) (rate : option float)
     (binaryString : string) (silent : AudioBuffer),
     atob base64Data = Returned binaryString →
     Nat.even (String.length binaryString) = true →
     createBuffer ctx 1 (String.length binaryString / 2) (default 24000%float rate)
       = Returned silent →
     ∃ samples,
       decodeAudioData base64Data ctx rate
         = Returned {| sampleRate := fround (default 24000%float rate);
                       channels := [samples] |}
       ∧ length samples = (String.length binaryString / 2)%nat
       ∧ ∀ (i : nat) (lo hi : Z),
           charCodeAt binaryString (2 * i) = Some lo →
           charCodeAt binaryString (2 * i + 1) = Some hi →
           ∃ v, -32768 ≤ v < 32768
                ∧ (v - (lo + 256 * hi)) mod 65536 = 0
                ∧ samples !! i = Some (number_of_Z v / 32768)%float)
  ∧ decode "AAAAQADA/38=" = Returned [0; 0; 0; 64; 0; 192; 255; 127]
  ∧ int16_elements [0; 0; 0; 64; 0; 192; 255; 127] = [0; 16384; -16384; 32767]
  ∧ (∀ (ctx : AudioContext) (silent : AudioBuffer),
       createBuffer ctx 1 4 24000%float = Returned silent →
       decodeAudioData "AAAAQADA/38=" ctx None
         = Returned {| sampleRate := 24000%float;
                       channels := [[0; 0.5; -0.5; 32767 / 32768]%float] |}).
Proof.
  split; [|split; [|split]].
  - intros base64Data ctx rate binaryString silent Hatob Heven Hcreate.
    eexists. split; [by eapply decodeAudioData_even|].
    set (bytes := charCode <$> list_ascii_of_string binaryString).
    assert (length bytes = String.length binaryString) as Hlen
      by (unfold bytes; by rewrite length_fmap, list_ascii_length).
    split; [by rewrite length_fmap, int16_elements_length, Hlen|].
    intros i lo hi Hlo Hhi.
    unfold charCodeAt in Hlo, Hhi. rewrite string_get_lookup in Hlo, Hhi.
    rewrite <- list_lookup_fmap in Hlo, Hhi. fold bytes in Hlo, Hhi.
    assert (∀ j b, bytes !! j = Some b → 0 ≤ b < 256) as Hbyte.
    { intros j b Hb. unfold bytes in Hb. rewrite list_lookup_fmap in Hb.
      destruct (_ !! j) as [c|]; [|done]. injection Hb as <-. apply charCode_byte. }
    pose proof (Hbyte _ _ Hlo) as Hlo_range. pose proof (Hbyte _ _ Hhi) as Hhi_range.
    exists (ToInt16 (lo + 256 * hi)).
    destruct (ToInt16_signed (lo + 256 * hi)) as [Hrange Hmod]; [lia|].
    split; [done|]. split; [done|].
    rewrite list_lookup_fmap, (int16_elements_lookup bytes i lo hi Hlo Hhi).
    rewrite little_endian_pair by done. simpl.
    by rewrite fround_int16_sample.
  - reflexivity.
  - reflexivity.
  - intros ctx silent Hcreate.
    by rewrite (decodeAudioData_even "AAAAQADA/38=" ctx None
                  (String "000" (String "000" (String "000" (String "@"
                     (String "000" (String "192" (String "255" (String "127"
                        EmptyString))))))))
                  silent eq_refl eq_refl Hcreate).
Qed.

Lemma decodeAudioData_little_endian_int16_samples_witness :
  decodeAudioData "AAAAQADA/38=" reference_context None
    = Returned {| sampleRate := 24000%float;
                  channels := [[0; 0.5; -0.5; 0.999969482421875]%float] |}
  ∧ ∃ samples,
      decodeAudioData "//8AgAEA" reference_context (Some 48000%float)
        = Returned {| sampleRate := 48000%float; channels := [samples] |}
      ∧ length samples = 3%nat.
Proof.
  destruct decodeAudioData_little_endian_int16_samples as (Hgeneral & _ & _ & Hexample).
  split.
  - apply (Hexample reference_context
             {| sampleRate := 24000%float;
                channels := [[0; 0; 0; 0]%float] |}).
    reflexivity.
  - destruct (Hgeneral "//8AgAEA" reference_context (Some 48000%float)
                (String "255" (String "255" (String "000" (String "128"
                   (String "001" (String "000" EmptyString))))))
                {| sampleRate := 48000%float; channels := [[0; 0; 0]%float] |}
                eq_refl eq_refl eq_refl)
      as (samples & Hreturned & Hlength & _).
    exists samples. split; [exact Hreturned | exact Hlength].
Defined.

(** * Further properties of the service functions *)

(** ** translateDocument: when it fails, and when a document is official *)

(** X1. translateDocument fails exactly when the remote call fails, or the
    response has a non-empty text that JSON.parse rejects or that parses to
    null (or undefined), a payload without fields to read. Every other
    payload, whatever its shape, is tolerated; and the error raised is always
    the generic one. *)
Theorem translateDocument_fails_iff
    (generateContent : GenerateContentParameters -> outcome GenAI.GenerateContentResponse)
    (JSON_parse : string -> outcome value)
    (base64Data mimeType targetLanguage : string) (mode : Mode) :
  ((∃ err, translateDocument generateContent JSON_parse base64Data mimeType
             targetLanguage mode = Thrown err)
   ↔ (∃ e, generateContent (TranslateRequest "gemini-3-flash-preview" mimeType base64Data
                              targetLanguage (thinkingBudget_of mode)) = Thrown e)
     ∨ (∃ response t,
          generateContent (TranslateRequest "gemini-3-flash-preview" mimeType base64Data
                             targetLanguage (thinkingBudget_of mode)) = Returned response
          ∧ GenAI.text response = Some t ∧ t ≠ ""
          ∧ ((∃ e, JSON_parse t = Thrown e)
             ∨ JSON_parse t = Returned VNull
             ∨ JSON_parse t = Returned VUndefined)))
  ∧ (∀ err, translateDocument generateContent JSON_parse base64Data mimeType
              targetLanguage mode = Thrown err →
            err = Error "Failed to translate document.").
Proof.
  split; [|by apply translateDocument_throws_generic].
  destruct (generateContent _) as [response|e] eqn:Hcall.
  - destruct (ToBoolean (string_value (GenAI.text response))) eqn:Htext.
    + apply string_value_truthy in Htext as (t & Ht & Hne).
      destruct (JSON_parse t) as [payload|e] eqn:Hparse.
      * assert ((payload = VUndefined ∨ payload = VNull)
                ∨ (payload ≠ VUndefined ∧ payload ≠ VNull)) as [Hnull|[Hu Hn]]
          by (destruct payload; auto).
        -- split.
           ++ intros _. right. exists response, t. repeat split; try done.
              destruct Hnull as [->| ->]; auto.
           ++ intros _. exists (Error "Failed to translate document.").
              unfold translateDocument. rewrite Hcall. simpl.
              assert (ToBoolean (string_value (GenAI.text response)) = true) as ->
                by (apply string_value_truthy; eauto).
              rewrite Ht. simpl. rewrite Hparse. by destruct Hnull as [->| ->].
        -- pose proof (translateDocument_parsed generateContent JSON_parse base64Data
                         mimeType targetLanguage mode response t payload
                         Hcall Ht Hne Hparse Hu Hn) as Hreturned.
           simpl in Hreturned. split.
           ++ intros [err Herr]. rewrite Hreturned in Herr. discriminate Herr.
           ++ intros [[e [=]]|(response' & t' & [= <-] & Ht' & _ & Hbad)].
              rewrite Ht in Ht'. injection Ht' as <-. rewrite Hparse in Hbad.
              destruct Hbad as [[e [=]]|[[= ->]|[= ->]]]; done.
      * split.
        -- intros _. right. exists response, t. repeat split; eauto.
        -- intros _. exists (Error "Failed to translate document.").
           unfold translateDocument. rewrite Hcall. simpl.
           assert (ToBoolean (string_value (GenAI.text response)) = true) as ->
             by (apply string_value_truthy; eauto).
           rewrite Ht. simpl. by rewrite Hparse.
    + split.
      * intros [err Herr]. unfold translateDocument in Herr.
        rewrite Hcall in Herr. simpl in Herr. rewrite Htext in Herr. discriminate Herr.
      * intros [[e [=]]|(response' & t' & [= <-] & Ht' & Hne & _)].
        apply string_value_falsy in Htext as [Hnone| Hempty]; congruence.
  - split.
    + intros _. left. eauto.
    + intros _. exists (Error "Failed to translate document.").
      unfold translateDocument. by rewrite Hcall.
Qed.

Lemma translateDocument_fails_iff_witness :
  (∃ err, translateDocument (service_replying (text_response "not json"))
            (parse_only unofficial_json unofficial_payload)
            "JVBERi0=" "application/pdf" "Telugu" speed = Thrown err)
  ∧ ¬ (∃ err, translateDocument (service_replying (text_response unofficial_json))
                (parse_only unofficial_json unofficial_payload)
                "JVBERi0=" "application/pdf" "Telugu" speed = Thrown err).
Proof.
  split.
  - apply (translateDocument_fails_iff (service_replying (text_response "not json"))
             (parse_only unofficial_json unofficial_payload)
             "JVBERi0=" "application/pdf" "Telugu" speed).
    right. exists (text_response "not json"), "not json".
    split; [reflexivity|]. split; [reflexivity|]. split; [discriminate|].
    left. exists SyntaxError. reflexivity.
  - intros Hfails.
    apply (translateDocument_fails_iff (service_replying (text_response unofficial_json))
             (parse_only unofficial_json unofficial_payload)
             "JVBERi0=" "application/pdf" "Telugu" speed) in Hfails.
    destruct Hfails as [[e He]|(response & t & Hcall & Ht & _ & Hbad)].
    + discriminate He.
    + injection Hcall as <-. injection Ht as <-.
      destruct Hbad as [[e He]|[He|He]]; discriminate He.
Defined.

(** X2. For a parsed payload with fields, officialInfo is non-null exactly
    when isOfficialDocument is truthy: the flag need not be the boolean true,
    a non-empty string or a non-zero number marks the document official as
    well. The record built then has isOfficial set to true. *)
Theorem translateDocument_official_iff_flag_truthy
    (generateContent : GenerateContentParameters -> outcome GenAI.GenerateContentResponse)
    (JSON_parse : string -> outcome value)
    (base64Data mimeType targetLanguage : string) (mode : Mode)
    (response : GenAI.GenerateContentResponse) (t : string) (payload flag : value) :
  generateContent (TranslateRequest "gemini-3-flash-preview" mimeType base64Data
                     targetLanguage (thinkingBudget_of mode)) = Returned response →
  GenAI.text response = Some t → t ≠ "" →
  JSON_parse t = Returned payload →
  get payload "isOfficialDocument" = Returned flag →
  ∃ r, translateDocument generateContent JSON_parse base64Data mimeType targetLanguage mode
         = Returned r
       ∧ (is_Some (officialInfo r) ↔ ToBoolean flag = true)
       ∧ (∀ info, officialInfo r = Some info → isOfficial info = true).
Proof.
  intros Hcall Ht Hne Hparse Hflag.
  apply get_returned_inv in Hflag as (Hu & Hn & ->).
  eexists. split; [by eapply translateDocument_parsed|].
  simpl. destruct (ToBoolean _); split.
  - split; [done|by eexists].
  - by intros info [= <-].
  - split; [by intros [? [=]]|done].
  - done.
Qed.

Lemma translateDocument_official_iff_flag_truthy_witness :
  ∃ r, translateDocument (service_replying (text_response string_flag_json))
         (parse_only string_flag_json string_flag_payload)
         "JVBERi0=" "application/pdf" "Telugu" speed = Returned r
       ∧ is_Some (officialInfo r).
Proof.
  destruct (translateDocument_official_iff_flag_truthy
              (service_replying (text_response string_flag_json))
              (parse_only string_flag_json string_flag_payload)
              "JVBERi0=" "application/pdf" "Telugu" speed
              (text_response string_flag_json) string_flag_json
              string_flag_payload (VStr "yes")
              eq_refl eq_refl ltac:(discriminate) eq_refl eq_refl)
    as (r & Hr & Hiff & _).
  exists r. split; [exact Hr|]. apply Hiff. reflexivity.
Defined.

(** ** generateSpeech: what a returned value is *)

(** X3. Whatever generateSpeech returns is the audio payload of the
    response: it is never the empty string, and it is the inline data of the
    first part of the first candidate, later parts and candidates being
    ignored. *)
Theorem generateSpeech_returns_audio_payload
    (generateContent : GenerateContentParameters -> outcome GenAI.GenerateContentResponse)
    (text audio : string) :
  generateSpeech generateContent text = Returned audio →
  audio ≠ ""
  ∧ ∃ response,
      generateContent (SpeechRequest "gemini-2.5-flash-preview-tts" text "Kore")
        = Returned response
      ∧ audio_payload response audio.
Proof.
  unfold generateSpeech.
  destruct (generateContent _) as [response|e] eqn:Hcall; simpl; [|done].
  set (chain := GenAI.candidates response ≫= _).
  destruct (ToBoolean (string_value chain)) eqn:Htruthy; simpl; [|done].
  apply string_value_truthy in Htruthy as (audio' & Hchain & Hne).
  rewrite Hchain. simpl. intros [= <-]. split; [done|].
  exists response. split; [done|]. apply audio_chain. by rewrite <- Hchain.
Qed.

Lemma generateSpeech_returns_audio_payload_witness :
  "AAAAQADA/38=" ≠ ""
  ∧ ∃ response,
      service_replying (speech_response (Some "AAAAQADA/38="))
        (SpeechRequest "gemini-2.5-flash-preview-tts" "Namaste" "Kore") = Returned response
      ∧ audio_payload response "AAAAQADA/38=".
Proof.
  apply (generateSpeech_returns_audio_payload
           (service_replying (speech_response (Some "AAAAQADA/38="))) "Namaste"
           "AAAAQADA/38=").
  reflexivity.
Defined.

(** ** decode and decodeAudioData: outcomes, bounds and round trips *)

(** X4. decode fails exactly when atob does, with the error of atob;
    otherwise it returns one byte per character of the binary string, in
    order, each the character code and each in 0..255: the loop leaves no
    byte of the array unwritten. *)
Theorem decode_is_the_byte_string (base64 : string) :
  (∀ e, atob base64 = Thrown e → decode base64 = Thrown e)
  ∧ (∀ binaryString, atob base64 = Returned binaryString →
       ∃ bytes, decode base64 = Returned bytes
         ∧ length bytes = String.length binaryString
         ∧ (∀ i, bytes !! i = charCodeAt binaryString i)
         ∧ (∀ i b, bytes !! i = Some b → 0 ≤ b < 256)).
Proof.
  split.
  - intros e Hatob. unfold decode. by rewrite Hatob.
  - intros binaryString Hatob. eexists. split; [by apply decode_bytes|].
    split; [by rewrite length_fmap, list_ascii_length|]. split.
    + intros i. unfold charCodeAt. by rewrite list_lookup_fmap, string_get_lookup.
    + intros i b Hb. rewrite list_lookup_fmap in Hb.
      destruct (_ !! i) as [c|]; [|done]. injection Hb as <-. apply charCode_byte.
Qed.

Lemma decode_is_the_byte_string_witness :
  decode "a===" = Thrown (DOMException "InvalidCharacterError")
  ∧ ∃ bytes, decode "//79" = Returned bytes ∧ length bytes = 3%nat.
Proof.
  destruct (decode_is_the_byte_string "a===") as [Hfail _].
  destruct (decode_is_the_byte_string "//79") as [_ Hbytes].
  split.
  - apply Hfail. reflexivity.
  - destruct (Hbytes (String "255" (String "254" (String "253" EmptyString))) eq_refl)
      as (bytes & Hdecode & Hlen & _).
    exists bytes. split; [exact Hdecode | exact Hlen].
Defined.

(** atob raises nothing but an InvalidCharacterError. *)
Lemma atob_throws_invalid_character (base64 : string) (e : exn) :
  atob base64 = Thrown e → e = DOMException "InvalidCharacterError".
Proof.
  unfold atob. destruct (_ =? 1)%nat; [by intros [= <-]|].
  destruct (mapM _ _); [done|by intros [= <-]].
Qed.

(** The four ways a call of decodeAudioData ends. *)
Lemma decodeAudioData_cases (base64Data : string) (ctx : AudioContext) (rate : option float) :
  (∃ e, atob base64Data = Thrown e ∧ decodeAudioData base64Data ctx rate = Thrown e)
  ∨ (∃ binaryString,
       atob base64Data = Returned binaryString
       ∧ Nat.even (String.length binaryString) = false
       ∧ decodeAudioData base64Data ctx rate = Thrown RangeError)
  ∨ (∃ binaryString e,
       atob base64Data = Returned binaryString
       ∧ Nat.even (String.length binaryString) = true
       ∧ createBuffer ctx 1 (String.length binaryString / 2) (default 24000%float rate)
         = Thrown e
       ∧ decodeAudioData base64Data ctx rate = Thrown e)
  ∨ (∃ binaryString silent,
       atob base64Data = Returned binaryString
       ∧ Nat.even (String.length binaryString) = true
       ∧ createBuffer ctx 1 (String.length binaryString / 2) (default 24000%float rate)
         = Returned silent
       ∧ decodeAudioData base64Data ctx rate = Returned
           {| sampleRate := fround (default 24000%float rate);
              channels :=
                [ (λ z, fround (number_of_Z z / 32768)%float)
                    <$> int16_elements (charCode <$> list_ascii_of_string binaryString) ] |}).
Proof.
  destruct (atob base64Data) as [binaryString|e] eqn:Hatob.
  - right.
    assert (length (charCode <$> list_ascii_of_string binaryString)
            = String.length binaryString) as Hlen
      by (by rewrite length_fmap, list_ascii_length).
    destruct (Nat.even (String.length binaryString)) eqn:Heven.
    + right.
      destruct (createBuffer ctx 1 (String.length binaryString / 2)
                  (default 24000%float rate)) as [silent|e] eqn:Hcreate.
      * right. exists binaryString, silent. repeat split; try done.
        by apply (decodeAudioData_even base64Data ctx rate binaryString silent).
      * left. exists binaryString, e. repeat split; try done.
        unfold decodeAudioData. rewrite (decode_bytes _ _ Hatob). simpl.
        unfold Int16Array_of_buffer. rewrite Hlen, Heven. simpl.
        replace (Nat.divmod (length (int16_elements _)) 0 0 0).1
          with (length (int16_elements (charCode <$> list_ascii_of_string binaryString)))
          by (symmetry; apply Nat.div_1_r).
        by rewrite int16_elements_length, Hlen, Hcreate.
    + left. exists binaryString. repeat split; try done.
      unfold decodeAudioData. rewrite (decode_bytes _ _ Hatob). simpl.
      unfold Int16Array_of_buffer. by rewrite Hlen, Heven.
  - left. exists e. split; [done|]. unfold decodeAudioData, decode. by rewrite Hatob.
Qed.

(** What createBuffer does for one channel. *)
Lemma createBuffer_mono (ctx : AudioContext) (n : nat) (rate : float) :
  createBuffer ctx 1 n rate
  = if PrimFloat.is_finite (fround rate) then
      if (maxChannelCount ctx <? 1)%nat || (n =? 0)%nat
         || negb (supportsSampleRate ctx (fround rate))
      then Thrown (DOMException "NotSupportedError")
      else Returned {| sampleRate := fround rate; channels := [replicate n 0%float] |}
    else Thrown TypeError.
Proof. unfold createBuffer, to_float. by destruct (PrimFloat.is_finite _). Qed.

Lemma half_is_zero (n : nat) : Nat.even n = true → (n / 2 = 0 ↔ n = 0)%nat.
Proof.
  intros [k ->]%Nat.even_spec.
  replace (2 * k)%nat with (k * 2)%nat by lia. rewrite Nat.div_mul by lia. lia.
Qed.

(** X5. decodeAudioData returns a buffer exactly when the input decodes to
    an even, non-zero number of bytes, the sample rate is a finite binary32
    number once rounded, and the context supports one channel at that rate.
    The buffer is then mono, carries the rounded rate (24000 Hz by default)
    and has one frame per byte pair. *)
Theorem decodeAudioData_returns_iff (base64Data : string) (ctx : AudioContext)
    (rate : option float) :
  ((∃ buffer, decodeAudioData base64Data ctx rate = Returned buffer)
   ↔ ∃ binaryString,
       atob base64Data = Returned binaryString
       ∧ Nat.even (String.length binaryString) = true
       ∧ String.length binaryString ≠ 0%nat
       ∧ PrimFloat.is_finite (fround (default 24000%float rate)) = true
       ∧ (1 ≤ maxChannelCount ctx)%nat
       ∧ supportsSampleRate ctx (fround (default 24000%float rate)) = true)
  ∧ (∀ buffer, decodeAudioData base64Data ctx rate = Returned buffer →
       sampleRate buffer = fround (default 24000%float rate)
       ∧ ∃ samples binaryString,
           channels buffer = [samples]
           ∧ atob base64Data = Returned binaryString
           ∧ (2 * length samples)%nat = String.length binaryString).
Proof.
  destruct (decodeAudioData_cases base64Data ctx rate)
    as [(e & Hatob & Hout)|[(s & Hatob & Hodd & Hout)|[(s & e & Hatob & Heven & Hc & Hout)
        |(s & silent & Hatob & Heven & Hc & Hout)]]]; rewrite Hout.
  - split; [|done]. split; [by intros [? [=]]|]. intros (s & Hs & _). congruence.
  - split; [|done]. split; [by intros [? [=]]|]. intros (s' & Hs & Heven & _). congruence.
  - split; [|done]. split; [by intros [? [=]]|].
    intros (s' & Hs & _ & Hne & Hfinite & Hmax & Hrate).
    assert (s' = s) as -> by congruence.
    rewrite createBuffer_mono, Hfinite, Hrate in Hc.
    destruct (Nat.ltb_spec (maxChannelCount ctx) 1); [lia|].
    destruct (Nat.eqb_spec (String.length s / 2) 0) as [Hzero|_]; [|done].
    destruct Hne. by apply half_is_zero.
  - rewrite createBuffer_mono in Hc.
    destruct (PrimFloat.is_finite _) eqn:Hfinite; [|done].
    destruct (Nat.ltb_spec (maxChannelCount ctx) 1); [done|].
    destruct (Nat.eqb_spec (String.length s / 2) 0) as [|Hnz]; [done|].
    destruct (supportsSampleRate ctx _) eqn:Hrate; [|done].
    split.
    + split; [|by eexists]. intros _. exists s. repeat split; try done.
      intros Hzero. apply Hnz. by apply half_is_zero.
    + intros buffer [= <-]. split; [done|]. eexists _, s. split; [done|].
      split; [done|].
      rewrite length_fmap, int16_elements_length, length_fmap, list_ascii_length.
      apply Nat.even_spec in Heven as [k ->].
      replace (2 * k)%nat with (k * 2)%nat at 1 by lia. rewrite Nat.div_mul by lia. lia.
Qed.

Lemma decodeAudioData_returns_iff_witness :
  (∃ buffer, decodeAudioData "AAAAQADA/38=" reference_context (Some 24000.1%float)
             = Returned buffer)
  ∧ ¬ (∃ buffer, decodeAudioData "" reference_context None = Returned buffer)
  ∧ ¬ (∃ buffer, decodeAudioData "AAAAQADA/38=" reference_context (Some nan)
                 = Returned buffer).
Proof.
  destruct (decodeAudioData_returns_iff "AAAAQADA/38=" reference_context
              (Some 24000.1%float)) as [Hyes _].
  destruct (decodeAudioData_returns_iff "" reference_context None) as [Hempty _].
  destruct (decodeAudioData_returns_iff "AAAAQADA/38=" reference_context (Some nan))
    as [Hnan _].
  split; [|split].
  - apply Hyes.
    exists (String "000" (String "000" (String "000" (String "@"
              (String "000" (String "192" (String "255" (String "127" EmptyString)))))))).
    repeat split; try reflexivity; [discriminate | simpl; lia].
  - intros Hreturns. apply Hempty in Hreturns as (s & Hatob & _ & Hne & _).
    injection Hatob as <-. by apply Hne.
  - intros Hreturns. apply Hnan in Hreturns as (s & _ & _ & _ & Hfinite & _).
    discriminate Hfinite.
Defined.

(** X6. decodeAudioData raises nothing but an InvalidCharacterError (the
    input is not base64), a RangeError (odd byte count), a TypeError (the
    sample rate is NaN, infinite or beyond the binary32 range) or a
    NotSupportedError (the context refuses the buffer, as it does for an
    input without bytes); reading the channel never fails. *)
Theorem decodeAudioData_raises_only (base64Data : string) (ctx : AudioContext)
    (rate : option float) (e : exn) :
  decodeAudioData base64Data ctx rate = Thrown e →
  e = DOMException "InvalidCharacterError"
  ∨ e = RangeError
  ∨ e = TypeError
  ∨ e = DOMException "NotSupportedError".
Proof.
  destruct (decodeAudioData_cases base64Data ctx rate)
    as [(e' & Hatob & Hout)|[(s & Hatob & Hodd & Hout)|[(s & e' & Hatob & Heven & Hc & Hout)
        |(s & silent & Hatob & Heven & Hc & Hout)]]]; rewrite Hout; intros [= <-].
  - left. by eapply atob_throws_invalid_character.
  - auto.
  - right. right. rewrite createBuffer_mono in Hc.
    destruct (PrimFloat.is_finite _); [|left; by simplify_eq].
    right. destruct (_ || _); by simplify_eq.
Qed.

Lemma decodeAudioData_raises_only_witness :
  decodeAudioData " " reference_context None = Thrown (DOMException "NotSupportedError")
  ∧ decodeAudioData "AAAAQADA/38=" reference_context (Some infinity) = Thrown TypeError
  ∧ (TypeError = DOMException "InvalidCharacterError"
     ∨ TypeError = RangeError
     ∨ TypeError = TypeError
     ∨ TypeError = DOMException "NotSupportedError").
Proof.
  split; [reflexivity|]. split; [reflexivity|].
  apply (decodeAudioData_raises_only "AAAAQADA/38=" reference_context (Some infinity)).
  reflexivity.
Defined.

Lemma all_int16_samples_checked : all_below 16 sample_bounded_and_reversible 0 = true.
Proof. vm_compute. reflexivity. Qed.

(** A 16-bit integer divided by 32768.0 lies in [-1, 1) and scales back to
    the integer. *)
Lemma int16_sample_facts (v : Z) :
  -32768 ≤ v < 32768 →
  (-1 <=? number_of_Z v / 32768)%float = true
  ∧ (number_of_Z v / 32768 <? 1)%float = true
  ∧ requantise (number_of_Z v / 32768)%float = v.
Proof.
  intros Hv.
  pose proof (all_below_spec 16 sample_bounded_and_reversible 0 (v + 32768)
                all_int16_samples_checked) as Hchecked.
  change (2 ^ Z.of_nat 16) with 65536 in Hchecked.
  unfold sample_bounded_and_reversible in Hchecked.
  replace (0 * 65536 + (v + 32768) - 32768) with v in Hchecked by lia.
  assert (0 ≤ v + 32768 < 65536) as Hu by lia. specialize (Hchecked Hu).
  apply andb_true_iff in Hchecked as [Hbounds Hback].
  apply andb_true_iff in Hbounds as [Hlow Hhigh].
  apply Z.eqb_eq in Hback. done.
Qed.

Lemma int16_elements_range (bytes : list Z) :
  Forall (λ b, 0 ≤ b < 256) bytes →
  Forall (λ v, -32768 ≤ v < 32768) (int16_elements bytes).
Proof.
  induction bytes as [|x|lo hi l IH] using list_pair_ind; simpl; [done..|].
  intros Hbytes. apply Forall_cons in Hbytes as [Hlo Hbytes].
  apply Forall_cons in Hbytes as [Hhi Hbytes].
  constructor; [|by apply IH].
  rewrite little_endian_pair by done.
  apply ToInt16_signed. lia.
Qed.

Lemma binary_string_bytes (binaryString : string) :
  Forall (λ b, 0 ≤ b < 256) (charCode <$> list_ascii_of_string binaryString).
Proof. apply Forall_fmap, Forall_true. intros c. apply charCode_byte. Qed.

(** X7. Every sample of a buffer returned by decodeAudioData lies in the
    half-open range from -1 to 1: it can be -1.0 and never reaches 1.0. *)
Theorem decodeAudioData_samples_in_range (base64Data : string) (ctx : AudioContext)
    (rate : option float) (buffer : AudioBuffer) (samples : list float) (sample : float) :
  decodeAudioData base64Data ctx rate = Returned buffer →
  samples ∈ channels buffer →
  sample ∈ samples →
  (-1 <=? sample)%float = true ∧ (sample <? 1)%float = true.
Proof.
  intros Hreturned Hchannel Hsample.
  destruct (decodeAudioData_cases base64Data ctx rate)
    as [(e & _ & Hout)|[(s & _ & _ & Hout)|[(s & e & _ & _ & _ & Hout)
        |(s & silent & Hatob & Heven & Hc & Hout)]]];
    rewrite Hout in Hreturned; try discriminate Hreturned.
  injection Hreturned as <-. simpl in Hchannel.
  apply list_elem_of_singleton in Hchannel as ->.
  apply list_elem_of_fmap in Hsample as (v & -> & Hv).
  pose proof (int16_elements_range _ (binary_string_bytes s)) as Hrange.
  rewrite Forall_forall in Hrange. apply Hrange in Hv.
  rewrite fround_int16_sample by done.
  by destruct (int16_sample_facts v Hv) as (? & ? & _).
Qed.

Lemma decodeAudioData_samples_in_range_witness :
  (-1 <=? -1)%float = true ∧ (-1 <? 1)%float = true.
Proof.
  apply (decodeAudioData_samples_in_range "//8AgAEA" reference_context None
           {| sampleRate := 24000%float;
              channels := [[-3.0517578125e-05; -1; 3.0517578125e-05]%float] |}
           [-3.0517578125e-05; -1; 3.0517578125e-05]%float (-1)%float).
  - reflexivity.
  - apply list_elem_of_here.
  - apply list_elem_of_further, list_elem_of_here.
Defined.

Lemma int16_bytes_read_back (v : Z) :
  -32768 ≤ v < 32768 →
  ToInt16 (Z.lor (v mod 256) (Z.shiftl ((v / 256) mod 256) 8)) = v.
Proof.
  intros Hv.
  rewrite little_endian_pair by (apply Z.mod_pos_bound; lia).
  rewrite <- (Z.rem_mul_r v 256 256) by lia. change (256 * 256) with 65536.
  unfold ToInt16. destruct (Z.lt_ge_cases v 0).
  - replace (v mod 65536) with (v + 65536).
    + destruct (Z.ltb_spec (v + 65536) 32768); lia.
    + symmetry. rewrite <- (Z.mod_add v 1 65536) by lia.
      change (1 * 65536) with 65536. apply Z.mod_small. lia.
  - rewrite Z.mod_small by lia. destruct (Z.ltb_spec v 32768); lia.
Qed.

(** Reading the byte stream of a sample sequence as 16-bit elements gives
    the sequence back. *)
Lemma int16_elements_pcm_bytes (pcm : list Z) :
  Forall (λ v, -32768 ≤ v < 32768) pcm →
  int16_elements (pcm_bytes pcm) = pcm.
Proof.
  induction 1 as [|v pcm Hv _ IH]; [done|].
  change (pcm_bytes (v :: pcm))
    with (v mod 256 :: (v / 256) mod 256 :: pcm_bytes pcm).
  simpl. by rewrite int16_bytes_read_back, IH.
Qed.

Lemma pcm_bytes_length (pcm : list Z) : length (pcm_bytes pcm) = (2 * length pcm)%nat.
Proof.
  induction pcm as [|v pcm IH]; [done|].
  change (pcm_bytes (v :: pcm))
    with (v mod 256 :: (v / 256) mod 256 :: pcm_bytes pcm).
  simpl. rewrite IH. lia.
Qed.

(** X8. Round trip of 16-bit PCM: when the input is the base64 form of the
    little-endian byte stream of a non-empty sample sequence, and the
    context supports one channel at the sample rate, decodeAudioData
    returns a buffer at the rate rounded to binary32 with exactly one
    sample per element, the element divided by 32768.0, in order; scaling
    the samples back by 32768 recovers the sequence, so the decoding loses
    nothing. For the empty sequence no buffer is returned. *)
Theorem decodeAudioData_pcm_round_trip (pcm : list Z) (base64Data : string)
    (ctx : AudioContext) (rate : option float) (binaryString : string) :
  Forall (λ v, -32768 ≤ v < 32768) pcm →
  atob base64Data = Returned binaryString →
  charCode <$> list_ascii_of_string binaryString = pcm_bytes pcm →
  PrimFloat.is_finite (fround (default 24000%float rate)) = true →
  (1 ≤ maxChannelCount ctx)%nat →
  supportsSampleRate ctx (fround (default 24000%float rate)) = true →
  (pcm ≠ [] →
   ∃ samples,
     decodeAudioData base64Data ctx rate
       = Returned {| sampleRate := fround (default 24000%float rate);
                     channels := [samples] |}
     ∧ samples = (λ v, number_of_Z v / 32768)%float <$> pcm
     ∧ requantise <$> samples = pcm)
  ∧ (pcm = [] →
     decodeAudioData base64Data ctx rate = Thrown (DOMException "NotSupportedError")).
Proof.
  intros Hpcm Hatob Hbytes Hfinite Hmax Hrate.
  assert (String.length binaryString = (length pcm * 2)%nat) as Hlen.
  { rewrite <- list_ascii_length, <- (length_fmap charCode), Hbytes, pcm_bytes_length. lia. }
  assert (Nat.even (String.length binaryString) = true) as Heven.
  { rewrite Hlen. apply Nat.even_spec. exists (length pcm). lia. }
  assert ((String.length binaryString / 2)%nat = length pcm) as Hhalf
    by (rewrite Hlen; apply Nat.div_mul; lia).
  pose proof (createBuffer_mono ctx (length pcm) (default 24000%float rate)) as Hcreate.
  rewrite Hfinite, Hrate in Hcreate.
  destruct (Nat.ltb_spec (maxChannelCount ctx) 1); [lia|]. simpl in Hcreate.
  rewrite <- Hhalf in Hcreate.
  destruct (decodeAudioData_cases base64Data ctx rate)
    as [(e & Hatob' & _)|[(s & Hatob' & Hodd & _)|[(s & e & Hatob' & _ & Hc & Hout)
        |(s & silent & Hatob' & _ & Hc & Hout)]]];
    rewrite Hatob in Hatob'; try discriminate Hatob'.
  - injection Hatob' as <-. congruence.
  - injection Hatob' as <-. rewrite Hcreate in Hc.
    destruct (Nat.eqb_spec (String.length binaryString / 2) 0) as [Hzero|Hnz].
    + injection Hc as <-. split.
      * intros Hne. destruct Hne. apply length_zero_iff_nil. congruence.
      * done.
    + discriminate Hc.
  - injection Hatob' as <-. rewrite Hcreate in Hc.
    destruct (Nat.eqb_spec (String.length binaryString / 2) 0) as [Hzero|Hnz];
      [discriminate Hc|].
    split; [|intros ->; destruct Hnz; exact Hhalf].
    intros _. rewrite Hout, Hbytes, int16_elements_pcm_bytes by done.
    assert ((λ z, fround (number_of_Z z / 32768)%float) <$> pcm
            = (λ v, number_of_Z v / 32768)%float <$> pcm) as ->.
    { apply Forall_fmap_ext_1. eapply Forall_impl; [exact Hpcm|].
      intros v Hv. simpl. by apply fround_int16_sample. }
    eexists. split; [done|]. split; [done|].
    rewrite <- list_fmap_compose. rewrite <- (list_fmap_id pcm) at 2.
    apply Forall_fmap_ext_1. eapply Forall_impl; [exact Hpcm|].
    intros v Hv. simpl. by destruct (int16_sample_facts v Hv) as (_ & _ & ?).
Qed.

Lemma decodeAudioData_pcm_round_trip_witness :
  (∃ samples,
     decodeAudioData "AAAAQADA/38=" reference_context (Some 24000.1%float)
       = Returned {| sampleRate := 24000.099609375%float; channels := [samples] |}
     ∧ samples = [0; 0.5; -0.5; 0.999969482421875]%float
     ∧ requantise <$> samples = [0; 16384; -16384; 32767])
  ∧ decodeAudioData "" reference_context None = Thrown (DOMException "NotSupportedError").
Proof.
  split.
  - apply (decodeAudioData_pcm_round_trip [0; 16384; -16384; 32767] "AAAAQADA/38="
             reference_context (Some 24000.1%float)
             (String "000" (String "000" (String "000" (String "@"
                (String "000" (String "192" (String "255" (String "127" EmptyString))))))))).
    + repeat constructor; lia.
    + reflexivity.
    + reflexivity.
    + reflexivity.
    + simpl; lia.
    + reflexivity.
    + discriminate.
  - apply (decodeAudioData_pcm_round_trip [] "" reference_context None EmptyString).
    + constructor.
    + reflexivity.
    + reflexivity.
    + reflexivity.
    + simpl; lia.
    + reflexivity.
    + reflexivity.
Defined.

(** ** resolveLocation: what each part of the result depends on *)

(** X9. The coordinates and the map link are extracted independently: the
    coordinates depend on the response text alone (an absent text counting
    as empty), the map link on the first candidate alone. A response that
    lacks one of the two still yields the other, and grounding data of later
    candidates is never consulted. *)
Theorem resolveLocation_parts_are_independent
    (generateContent1 generateContent2 :
       GenerateContentParameters -> outcome GenAI.GenerateContentResponse)
    (address1 address2 : string) (response1 response2 : GenAI.GenerateContentResponse) :
  generateContent1 (GeocodeRequest "gemini-2.5-flash" address1) = Returned response1 →
  generateContent2 (GeocodeRequest "gemini-2.5-flash" address2) = Returned response2 →
  ∃ r1 r2,
    resolveLocation generateContent1 address1 = Returned r1
    ∧ resolveLocation generateContent2 address2 = Returned r2
    ∧ (string_or (GenAI.text response1) "" = string_or (GenAI.text response2) "" →
       latitude r1 = latitude r2 ∧ longitude r1 = longitude r2)
    ∧ ((GenAI.candidates response1 ≫= λ cs, cs !! 0%nat)
         = (GenAI.candidates response2 ≫= λ cs, cs !! 0%nat) →
       mapUri r1 = mapUri r2).
Proof.
  intros Hcall1 Hcall2. eexists _, _.
  split; [by apply resolveLocation_answered|].
  split; [by apply resolveLocation_answered|].
  simpl. split.
  - by intros ->.
  - intros Hfirst.
    destruct (GenAI.candidates response1) as [cs1|], (GenAI.candidates response2) as [cs2|];
      simpl in *.
    + by rewrite Hfirst.
    + by rewrite Hfirst.
    + by rewrite <- Hfirst.
    + done.
Qed.

Lemma resolveLocation_parts_are_independent_witness :
  ∃ r1 r2,
    resolveLocation
      (service_replying
         (geocode_response "no coordinates here" [web_chunk "https://maps.example/place/1"]))
      "12 MG Road" = Returned r1
    ∧ resolveLocation
        (service_replying
           {| GenAI.text := None;
              GenAI.candidates :=
                Some [ {| GenAI.content := None;
                          GenAI.groundingMetadata :=
                            Some {| GenAI.groundingChunks :=
                                      Some [web_chunk "https://maps.example/place/1"] |} |};
                       {| GenAI.content := None;
                          GenAI.groundingMetadata :=
                            Some {| GenAI.groundingChunks :=
                                      Some [web_chunk "https://maps.example/place/2"] |} |} ] |})
        "Vidhana Soudha, Bengaluru" = Returned r2
    ∧ mapUri r1 = mapUri r2.
Proof.
  destruct (resolveLocation_parts_are_independent
              (service_replying
                 (geocode_response "no coordinates here"
                    [web_chunk "https://maps.example/place/1"]))
              (service_replying
                 {| GenAI.text := None;
                    GenAI.candidates :=
                      Some [ {| GenAI.content := None;
                                GenAI.groundingMetadata :=
                                  Some {| GenAI.groundingChunks :=
                                            Some [web_chunk "https://maps.example/place/1"] |} |};
                             {| GenAI.content := None;
                                GenAI.groundingMetadata :=
                                  Some {| GenAI.groundingChunks :=
                                            Some [web_chunk "https://maps.example/place/2"] |} |} ] |})
              "12 MG Road" "Vidhana Soudha, Bengaluru" _ _ eq_refl eq_refl)
    as (r1 & r2 & Hr1 & Hr2 & _ & Hlink).
  exists r1, r2. split; [exact Hr1|]. split; [exact Hr2|]. apply Hlink. reflexivity.
Defined.

(** ** The coordinate patterns ignore case *)

Section IgnoringCase.

#[local] Arguments String.append !_ _ : simpl nomatch.

Lemma charCode_inj (c c' : ascii) : charCode c = charCode c' → c = c'.
Proof.
  unfold charCode. intros H%N2Z.inj.
  by rewrite <- (ascii_N_embedding c), H, ascii_N_embedding.
Qed.

Lemma charCode_canonicalize (c : ascii) :
  charCode (canonicalize c)
  = if (97 <=? charCode c) && (charCode c <=? 122) then charCode c - 32 else charCode c.
Proof.
  unfold canonicalize. destruct (_ && _) eqn:Hletter; [|done].
  unfold charCode at 1. rewrite N_ascii_embedding; lia.
Qed.

(** Two characters equal up to case are equal unless they are letters. *)
Lemma same_case_non_letter (c c' : ascii) :
  Ascii.eqb (canonicalize c) (canonicalize c') = true →
  charCode c < 65 ∨ 122 < charCode c ∨ 90 < charCode c < 97 →
  c = c'.
Proof.
  intros Hsame%Ascii.eqb_eq Hc. apply charCode_inj.
  apply (f_equal charCode) in Hsame. rewrite !charCode_canonicalize in Hsame.
  destruct (_ && _) eqn:H1 in Hsame; destruct (_ && _) eqn:H2 in Hsame; lia.
Qed.

Lemma same_case_letter (c c' : ascii) :
  Ascii.eqb (canonicalize c) (canonicalize c') = true →
  65 ≤ charCode c ≤ 90 ∨ 97 ≤ charCode c ≤ 122 →
  65 ≤ charCode c' ≤ 90 ∨ 97 ≤ charCode c' ≤ 122.
Proof.
  intros Hsame%Ascii.eqb_eq Hc.
  apply (f_equal charCode) in Hsame. rewrite !charCode_canonicalize in Hsame.
  destruct (_ && _) eqn:H1 in Hsame; destruct (_ && _) eqn:H2 in Hsame; lia.
Qed.

(** A test that no letter passes cannot tell apart two characters equal up
    to case. *)
Lemma same_case_test (p : ascii → bool) (c c' : ascii) :
  (∀ x, p x = true → charCode x < 65 ∨ 122 < charCode x ∨ 90 < charCode x < 97) →
  Ascii.eqb (canonicalize c) (canonicalize c') = true →
  p c = p c' ∧ (p c = true → c = c').
Proof.
  intros Hp Hsame.
  assert (charCode c < 65 ∨ 122 < charCode c ∨ 90 < charCode c < 97
          ∨ 65 ≤ charCode c ≤ 90 ∨ 97 ≤ charCode c ≤ 122) as [H|[H|[H|H]]] by lia.
  1-3: by rewrite (same_case_non_letter c c' Hsame) by auto.
  pose proof (same_case_letter c c' Hsame H) as H'.
  destruct (p c) eqn:Hpc; [apply Hp in Hpc; lia|].
  destruct (p c') eqn:Hpc'; [apply Hp in Hpc'; lia|]. done.
Qed.

Lemma digit_is_no_letter (x : ascii) :
  is_digit x = true → charCode x < 65 ∨ 122 < charCode x ∨ 90 < charCode x < 97.
Proof. unfold is_digit. lia. Qed.

Lemma white_space_is_no_letter (x : ascii) :
  is_white_space x = true → charCode x < 65 ∨ 122 < charCode x ∨ 90 < charCode x < 97.
Proof. unfold is_white_space. lia. Qed.

Lemma take_digits_same_case (s s' : string) :
  same_ignoring_case s s' = true →
  (take_digits s).1 = (take_digits s').1
  ∧ same_ignoring_case (take_digits s).2 (take_digits s').2 = true.
Proof.
  revert s'. induction s as [|c s IH]; intros [|c' s']; simpl; try done.
  intros [Hc Hs]%andb_true_iff.
  destruct (same_case_test is_digit c c' digit_is_no_letter Hc) as [Hp Heq].
  rewrite <- Hp. destruct (is_digit c).
  - rewrite <- (Heq eq_refl). destruct (IH s' Hs) as [H1 H2].
    destruct (take_digits s), (take_digits s'). simpl in *. by rewrite H1.
  - simpl. by rewrite Hc, Hs.
Qed.

Lemma skip_white_space_same_case (s s' : string) :
  same_ignoring_case s s' = true →
  same_ignoring_case (skip_white_space s) (skip_white_space s') = true.
Proof.
  revert s'. induction s as [|c s IH]; intros [|c' s']; simpl; try done.
  intros [Hc Hs]%andb_true_iff.
  destruct (same_case_test is_white_space c c' white_space_is_no_letter Hc) as [Hp _].
  rewrite <- Hp. destruct (is_white_space c); [by apply IH|].
  simpl. by rewrite Hc, Hs.
Qed.

(** What [starts_with] gives on two texts equal up to case, for a character
    that is no letter. *)
Lemma starts_with_same_case (x : ascii) (s s' : string) :
  charCode x < 65 ∨ 122 < charCode x ∨ 90 < charCode x < 97 →
  same_ignoring_case s s' = true →
  match starts_with x s, starts_with x s' with
  | Some r, Some r' => same_ignoring_case r r' = true
  | None, None => True
  | _, _ => False
  end.
Proof.
  intros Hx. destruct s as [|c s], s' as [|c' s']; simpl; try done.
  intros [Hc Hs]%andb_true_iff.
  destruct (same_case_test (λ y, Ascii.eqb y x) c c') as [Hp _]; [|done|].
  - by intros y ->%Ascii.eqb_eq.
  - simpl in Hp. rewrite <- Hp. by destruct (Ascii.eqb c x).
Qed.

Lemma match_unsigned_same_case (s s' : string) :
  same_ignoring_case s s' = true → match_unsigned s = match_unsigned s'.
Proof.
  intros Hs. unfold match_unsigned.
  destruct (take_digits_same_case s s' Hs) as [Hint Hrest].
  destruct (take_digits s) as [int_part s2], (take_digits s') as [int_part' s2'].
  simpl in *. subst int_part'. destruct (is_empty int_part); [done|].
  pose proof (starts_with_same_case "." s2 s2' ltac:(left; reflexivity) Hrest) as Hdot.
  destruct (starts_with "." s2) as [s3|], (starts_with "." s2') as [s3'|]; try done.
  destruct (take_digits_same_case s3 s3' Hdot) as [Hfrac _].
  destruct (take_digits s3) as [frac ?], (take_digits s3') as [frac' ?].
  simpl in *. by subst frac'.
Qed.

Lemma match_number_same_case (s s' : string) :
  same_ignoring_case s s' = true → match_number s = match_number s'.
Proof.
  intros Hs. unfold match_number.
  pose proof (starts_with_same_case "-" s s' ltac:(left; reflexivity) Hs) as Hsign.
  destruct (starts_with "-" s) as [r|], (starts_with "-" s') as [r'|]; try done.
  - by rewrite (match_unsigned_same_case r r').
  - by apply match_unsigned_same_case.
Qed.

Lemma match_marker_same_case (marker s s' : string) :
  same_ignoring_case s s' = true →
  match match_marker marker s, match_marker marker s' with
  | Some r, Some r' => same_ignoring_case r r' = true
  | None, None => True
  | _, _ => False
  end.
Proof.
  revert s s'. induction marker as [|m marker IH]; intros s s' Hs; simpl; [done|].
  destruct s as [|c s], s' as [|c' s']; simpl in *; try done.
  apply andb_true_iff in Hs as [Hc Hs].
  apply Ascii.eqb_eq in Hc. rewrite <- Hc.
  destruct (Ascii.eqb (canonicalize c) (canonicalize m)); [by apply IH|done].
Qed.

Lemma match_here_same_case (marker s s' : string) :
  same_ignoring_case s s' = true → match_here marker s = match_here marker s'.
Proof.
  intros Hs. unfold match_here.
  pose proof (match_marker_same_case marker s s' Hs) as Hmarker.
  destruct (match_marker marker s) as [r|], (match_marker marker s') as [r'|]; try done.
  simpl. by apply match_number_same_case, skip_white_space_same_case.
Qed.

(** The match of a coordinate pattern is the same on two texts that differ
    in case only. *)
Lemma regex_match_same_case (marker s s' : string) :
  same_ignoring_case s s' = true → regex_match marker s = regex_match marker s'.
Proof.
  revert s'. induction s as [|c s IH]; intros [|c' s'] Hs; try done.
  rewrite (regex_match_unfold marker (String c s)), (regex_match_unfold marker (String c' s')).
  rewrite (match_here_same_case marker _ _ Hs).
  destruct (match_here marker (String c' s')); [done|].
  simpl in Hs. apply andb_true_iff in Hs as [_ Hs]. by apply IH.
Qed.

End IgnoringCase.

(** X10. The coordinate markers and the text around them are read without
    regard to case: two response texts that differ only in the case of
    their letters yield the same latitude and the same longitude. *)
Theorem resolveLocation_ignores_case
    (generateContent1 generateContent2 :
       GenerateContentParameters -> outcome GenAI.GenerateContentResponse)
    (address1 address2 : string) (response1 response2 : GenAI.GenerateContentResponse) :
  generateContent1 (GeocodeRequest "gemini-2.5-flash" address1) = Returned response1 →
  generateContent2 (GeocodeRequest "gemini-2.5-flash" address2) = Returned response2 →
  same_ignoring_case (string_or (GenAI.text response1) "")
                     (string_or (GenAI.text response2) "") = true →
  ∃ r1 r2,
    resolveLocation generateContent1 address1 = Returned r1
    ∧ resolveLocation generateContent2 address2 = Returned r2
    ∧ latitude r1 = latitude r2 ∧ longitude r1 = longitude r2.
Proof.
  intros Hcall1 Hcall2 Hsame. eexists _, _.
  split; [by apply resolveLocation_answered|].
  split; [by apply resolveLocation_answered|].
  simpl. by rewrite !(regex_match_same_case _ _ _ Hsame).
Qed.

Lemma resolveLocation_ignores_case_witness :
  ∃ r1 r2,
    resolveLocation (service_replying (text_response "Lat: 12.5, lng: -77"))
      "12 MG Road" = Returned r1
    ∧ resolveLocation (service_replying (text_response "LAT: 12.5, LNG: -77"))
        "12 MG Road" = Returned r2
    ∧ latitude r1 = latitude r2 ∧ longitude r1 = longitude r2.
Proof.
  apply (resolveLocation_ignores_case
           (service_replying (text_response "Lat: 12.5, lng: -77"))
           (service_replying (text_response "LAT: 12.5, LNG: -77"))
           "12 MG Road" "12 MG Road"
           (text_response "Lat: 12.5, lng: -77") (text_response "LAT: 12.5, LNG: -77")).
  - reflexivity.
  - reflexivity.
  - reflexivity.
Defined.

(** ** translateDocument: each field falls back on its own *)

(** X11. The fields of a result are normalised independently of one
    another: text depends on the payload's translation alone, summary on its
    summary, actionItems on its actionItems, address on its address, and
    officialInfo on isOfficialDocument and officialDetails. A field that is
    missing or malformed in the payload changes nothing in the others. *)
Theorem translateDocument_fields_are_independent
    (generateContent1 generateContent2 :
       GenerateContentParameters -> outcome GenAI.GenerateContentResponse)
    (JSON_parse1 JSON_parse2 : string -> outcome value)
    (base64Data1 base64Data2 mimeType1 mimeType2 targetLanguage1 targetLanguage2 : string)
    (mode1 mode2 : Mode)
    (response1 response2 : GenAI.GenerateContentResponse) (t1 t2 : string)
    (payload1 payload2 : value) :
  generateContent1 (TranslateRequest "gemini-3-flash-preview" mimeType1 base64Data1
                      targetLanguage1 (thinkingBudget_of mode1)) = Returned response1 →
  generateContent2 (TranslateRequest "gemini-3-flash-preview" mimeType2 base64Data2
                      targetLanguage2 (thinkingBudget_of mode2)) = Returned response2 →
  GenAI.text response1 = Some t1 → t1 ≠ "" →
  GenAI.text response2 = Some t2 → t2 ≠ "" →
  JSON_parse1 t1 = Returned payload1 → payload1 ≠ VUndefined → payload1 ≠ VNull →
  JSON_parse2 t2 = Returned payload2 → payload2 ≠ VUndefined → payload2 ≠ VNull →
  ∃ r1 r2,
    translateDocument generateContent1 JSON_parse1 base64Data1 mimeType1 targetLanguage1 mode1
      = Returned r1
    ∧ translateDocument generateContent2 JSON_parse2 base64Data2 mimeType2 targetLanguage2 mode2
      = Returned r2
    ∧ (own_property payload1 "translation" = own_property payload2 "translation" →
       text r1 = text r2)
    ∧ (own_property payload1 "summary" = own_property payload2 "summary" →
       summary r1 = summary r2)
    ∧ (own_property payload1 "actionItems" = own_property payload2 "actionItems" →
       actionItems r1 = actionItems r2)
    ∧ (own_property payload1 "address" = own_property payload2 "address" →
       address r1 = address r2)
    ∧ (own_property payload1 "isOfficialDocument"
         = own_property payload2 "isOfficialDocument" →
       own_property payload1 "officialDetails" = own_property payload2 "officialDetails" →
       officialInfo r1 = officialInfo r2).
Proof.
  intros Hcall1 Hcall2 Ht1 Hne1 Ht2 Hne2 Hparse1 Hu1 Hn1 Hparse2 Hu2 Hn2.
  eexists _, _.
  split; [by eapply translateDocument_parsed|].
  split; [by eapply translateDocument_parsed|].
  simpl. repeat split; try by intros ->.
  by intros -> ->.
Qed.

Lemma translateDocument_fields_are_independent_witness :
  ∃ r1 r2,
    translateDocument (service_replying (text_response unofficial_json))
      (parse_only unofficial_json unofficial_payload)
      "JVBERi0=" "application/pdf" "Telugu" speed = Returned r1
    ∧ translateDocument (service_replying (text_response official_json))
        (parse_only official_json official_payload)
        "iVBORw0=" "image/png" "Hindi" detailed = Returned r2
    ∧ summary r1 = summary r2 ∧ actionItems r1 = actionItems r2 ∧ address r1 = address r2.
Proof.
  destruct (translateDocument_fields_are_independent
              (service_replying (text_response unofficial_json))
              (service_replying (text_response official_json))
              (parse_only unofficial_json unofficial_payload)
              (parse_only official_json official_payload)
              "JVBERi0=" "iVBORw0=" "application/pdf" "image/png" "Telugu" "Hindi"
              speed detailed
              (text_response unofficial_json) (text_response official_json)
              unofficial_json official_json unofficial_payload official_payload
              eq_refl eq_refl eq_refl ltac:(discriminate) eq_refl ltac:(discriminate)
              eq_refl ltac:(discriminate) ltac:(discriminate)
              eq_refl ltac:(discriminate) ltac:(discriminate))
    as (r1 & r2 & Hr1 & Hr2 & _ & Hsummary & Hitems & Haddress & _).
  exists r1, r2. split; [exact Hr1|]. split; [exact Hr2|].
  split; [apply Hsummary; reflexivity|].
  split; [apply Hitems; reflexivity | apply Haddress; reflexivity].
Defined.

(** ** resolveLocation: where a map link comes from *)

Lemma first_web_uri_Some (chunks : list GenAI.GroundingChunk) (u : string) :
  first_web_uri chunks = Some u →
  ∃ (before after : list GenAI.GroundingChunk) chunk,
    chunks = (before ++ chunk :: after)%list
    ∧ exposes_web_uri chunk u
    ∧ ∀ c u', c ∈ before → ¬ exposes_web_uri c u'.
Proof.
  induction chunks as [|chunk chunks IH]; [done|].
  destruct (ToBoolean (string_value (GenAI.web chunk ≫= GenAI.uri))) eqn:Htruthy.
  - simpl. rewrite Htruthy. intros Huri.
    apply string_value_truthy in Htruthy as (u' & Hu' & Hne).
    assert (u' = u) as -> by congruence.
    exists [], chunks, chunk. split; [done|]. split.
    + unfold exposes_web_uri. destruct (GenAI.web chunk) as [w|]; [|done]. by exists w.
    + intros c u' Hin. by apply elem_of_nil in Hin.
  - simpl. rewrite Htruthy. intros (before & after & hit & -> & Hhit & Hbefore)%IH.
    exists (chunk :: before), after, hit. split; [done|]. split; [done|].
    intros c u' [->|Hin]%elem_of_cons; [|by apply Hbefore].
    intros (w & Hw & Hu' & Hne).
    assert (ToBoolean (string_value (GenAI.web chunk ≫= GenAI.uri)) = true)
      by (apply string_value_truthy; exists u'; by rewrite Hw).
    congruence.
Qed.

(** X12. A map link in the result is never empty and never invented: it is
    the web URI of a grounding reference of the first candidate, and every
    reference listed before that one exposes no web URI. *)
Theorem resolveLocation_map_uri_origin
    (generateContent : GenerateContentParameters -> outcome GenAI.GenerateContentResponse)
    (address : string) (r : LocationResult) (u : string) :
  resolveLocation generateContent address = Returned r →
  mapUri r = Some u →
  u ≠ ""
  ∧ ∃ response (chunks before after : list GenAI.GroundingChunk) chunk,
      generateContent (GeocodeRequest "gemini-2.5-flash" address) = Returned response
      ∧ grounding_references response chunks
      ∧ chunks = (before ++ chunk :: after)%list
      ∧ exposes_web_uri chunk u
      ∧ ∀ c u', c ∈ before → ¬ exposes_web_uri c u'.
Proof.
  intros Hr Hu.
  destruct (generateContent (GeocodeRequest "gemini-2.5-flash" address))
    as [response|e] eqn:Hcall.
  - rewrite (resolveLocation_answered generateContent address response Hcall) in Hr.
    injection Hr as <-. simpl in Hu.
    destruct (GenAI.candidates response ≫= _) as [chunks|] eqn:Hchain; [|done].
    simpl in Hu. apply grounding_chain in Hchain.
    apply first_web_uri_Some in Hu as (before & after & chunk & -> & Hhit & Hbefore).
    split; [by destruct Hhit as (w & _ & _ & ?)|].
    by exists response, (before ++ chunk :: after)%list, before, after, chunk.
  - unfold resolveLocation in Hr. rewrite Hcall in Hr. by injection Hr as <-.
Qed.

Lemma resolveLocation_map_uri_origin_witness :
  "https://maps.example/place/1" ≠ ""
  ∧ ∃ response (chunks before after : list GenAI.GroundingChunk) chunk,
      service_replying
        (geocode_response "LAT: 12.9716, LNG: 77.5946"
           [plain_chunk; web_chunk ""; web_chunk "https://maps.example/place/1"])
        (GeocodeRequest "gemini-2.5-flash" "Vidhana Soudha, Bengaluru") = Returned response
      ∧ grounding_references response chunks
      ∧ chunks = (before ++ chunk :: after)%list
      ∧ exposes_web_uri chunk "https://maps.example/place/1"
      ∧ ∀ c u', c ∈ before → ¬ exposes_web_uri c u'.
Proof.
  apply (resolveLocation_map_uri_origin
           (service_replying
              (geocode_response "LAT: 12.9716, LNG: 77.5946"
                 [plain_chunk; web_chunk ""; web_chunk "https://maps.example/place/1"]))
           "Vidhana Soudha, Bengaluru"
           {| latitude := Some 12.9716%float;
              longitude := Some 77.5946%float;
              mapUri := Some "https://maps.example/place/1" |}
           "https://maps.example/place/1").
  - reflexivity.
  - reflexivity.
Defined.
